(** * vite-plugin-virtual-html: the page resolver and the dev-server handler

    A shallow embedding of [src/html/Base.ts] and [src/html/Serve.ts].

    JavaScript strings are modelled as [string]; every operation the
    plugin performs on them only compares characters for equality, so the
    width of a code unit plays no role.  A plain object used as a table
    ([_pages], [_injectCode], template data) is a [gmap] over its own keys,
    with [Object.prototype] behind it: see [Module Obj].

    [Base.ts] holds two revisions of the class [Base].  The later one (the
    arrow-function members) is embedded in [Module Base]; the members of
    the earlier one that differ are embedded in [Module Legacy]. *)

From Stdlib Require Import Ascii String List Bool Arith Lia.
From stdpp Require Import base option gmap strings list.

(** ** The string primitives of the host language *)

Module JS.

Definition chr (n : nat) : string := String (ascii_of_nat n) EmptyString.

(** Line feed and the double quote character. *)
Definition NL : string := chr 10.
Definition DQ : string := chr 34.

Definition slash : ascii := ascii_of_nat 47.
Definition backslash : ascii := ascii_of_nat 92.
Definition dollar : ascii := ascii_of_nat 36.
Definition ampersand : ascii := ascii_of_nat 38.
Definition backtick : ascii := ascii_of_nat 96.
Definition quote : ascii := ascii_of_nat 39.
Definition question : ascii := ascii_of_nat 63.
Definition nul : ascii := ascii_of_nat 0.
Definition dot : ascii := ascii_of_nat 46.

(** [s.startsWith(p)] *)
Fixpoint startsWith (p s : string) : bool :=
  match p, s with
  | EmptyString, _ => true
  | String _ _, EmptyString => false
  | String a p', String b s' => Ascii.eqb a b && startsWith p' s'
  end.

(** [s.endsWith(p)]: some suffix of [s] is [p]. *)
Fixpoint endsWith (p s : string) : bool :=
  String.eqb p s ||
  match s with
  | EmptyString => false
  | String _ s' => endsWith p s'
  end.

(** [s.substring(n)] *)
Fixpoint skip (n : nat) (s : string) : string :=
  match n, s with
  | O, _ => s
  | S _, EmptyString => EmptyString
  | S n', String _ s' => skip n' s'
  end.

Fixpoint take (n : nat) (s : string) : string :=
  match n, s with
  | O, _ => EmptyString
  | S _, EmptyString => EmptyString
  | S n', String a s' => String a (take n' s')
  end.

(** [s.substring(i, j)]; the two indices are swapped when [j < i] and
    clamped to the length. *)
Definition substring (i j : nat) (s : string) : string :=
  let lo := Nat.min i j in
  let hi := Nat.max i j in
  take (hi - lo) (skip lo s).

(** [s.indexOf(p)], [None] standing for [-1]. *)
Fixpoint indexOf (p s : string) : option nat :=
  if startsWith p s then Some 0
  else match s with
       | EmptyString => None
       | String _ s' => option_map S (indexOf p s')
       end.

Definition includes (p s : string) : bool :=
  match indexOf p s with Some _ => true | None => false end.

(** The expansion of a replacement template (GetSubstitution of the
    language standard) for a string pattern: there are no captures, so
    only [$$], [$&], [$`] and [$'] are special. *)
Fixpoint getSubstitution (matched before after template : string) : string :=
  match template with
  | EmptyString => EmptyString
  | String c rest =>
      if Ascii.eqb c dollar then
        match rest with
        | EmptyString => String c EmptyString
        | String d rest' =>
            if Ascii.eqb d dollar then
              String dollar (getSubstitution matched before after rest')
            else if Ascii.eqb d ampersand then
              matched +:+ getSubstitution matched before after rest'
            else if Ascii.eqb d backtick then
              before +:+ getSubstitution matched before after rest'
            else if Ascii.eqb d quote then
              after +:+ getSubstitution matched before after rest'
            else
              String c (String d (getSubstitution matched before after rest'))
        end
      else String c (getSubstitution matched before after rest)
  end.

(** [s.replace(p, r)] with a string pattern: the first occurrence of [p]
    only.  [before] is the part of the subject already scanned. *)
Fixpoint replace_from (p r before s : string) : string :=
  if startsWith p s then
    let after := skip (String.length p) s in
    getSubstitution p before after r +:+ after
  else match s with
       | EmptyString => EmptyString
       | String a s' =>
           String a (replace_from p r (before +:+ String a EmptyString) s')
       end.

Definition replace (p r s : string) : string :=
  replace_from p r EmptyString s.

(** [s.replace(/\\/g, '/')] *)
Fixpoint slashes (s : string) : string :=
  match s with
  | EmptyString => EmptyString
  | String a s' =>
      String (if Ascii.eqb a backslash then slash else a) (slashes s')
  end.

(** [s.split(c)] for a one-character separator. *)
Fixpoint split (c : ascii) (s : string) : list string :=
  match s with
  | EmptyString => [EmptyString]
  | String a s' =>
      if Ascii.eqb a c then EmptyString :: split c s'
      else match split c s' with
           | [] => [String a EmptyString]
           | w :: ws => String a w :: ws
           end
  end.

(** [xs[xs.length - 1]] on the result of a [split], which is never
    empty. *)
Definition last_segment (c : ascii) (s : string) : string :=
  List.last (split c s) EmptyString.

(** [xs[0]] on the result of a [split]. *)
Definition first_segment (c : ascii) (s : string) : string :=
  List.hd EmptyString (split c s).

(** Number of positions of [s] at which [p] occurs. *)
Fixpoint occurrences (p s : string) : nat :=
  (if startsWith p s then 1 else 0) +
  match s with
  | EmptyString => 0
  | String _ s' => occurrences p s'
  end.

(** No [$] in a replacement template: it is inserted as it is. *)
Fixpoint literal (r : string) : bool :=
  match r with
  | EmptyString => true
  | String c r' => negb (Ascii.eqb c dollar) && literal r'
  end.

(** The character [c] does not occur in [s]. *)
Fixpoint lacks (c : ascii) (s : string) : bool :=
  match s with
  | EmptyString => true
  | String a s' => negb (Ascii.eqb a c) && lacks c s'
  end.

End JS.

(** ** Plain objects

    A table written as an object has [Object.prototype] behind it.  A
    key that is no property of the object itself is still found, by
    [obj[key]] and by [key in obj], when [Object.prototype] has it; what
    is found then is a function, or [Object.prototype] itself for
    [__proto__].  An assignment [obj[key] = value] makes an own property,
    except for [__proto__], whose setter drops a value that is no
    object. *)

Module Obj.

Inductive Member (A : Type) :=
| Own (a : A)
| Inherited (key : string).
Arguments Own {A} a.
Arguments Inherited {A} key.

(** The properties of [Object.prototype]. *)
Definition Object_prototype : list string :=
  [ "constructor"; "__defineGetter__"; "__defineSetter__"; "hasOwnProperty";
    "__lookupGetter__"; "__lookupSetter__"; "isPrototypeOf";
    "propertyIsEnumerable"; "toString"; "valueOf"; "__proto__";
    "toLocaleString" ].

Definition inherited (key : string) : bool :=
  existsb (String.eqb key) Object_prototype.

(** [obj[key]], [None] standing for [undefined]. *)
Definition member {A} (obj : gmap string A) (key : string)
  : option (Member A) :=
  match obj !! key with
  | Some a => Some (Own a)
  | None => if inherited key then Some (Inherited key) else None
  end.

(** [obj[key] = a] *)
Definition assign {A} (key : string) (a : A) (obj : gmap string A)
  : gmap string A :=
  if String.eqb key "__proto__" then obj else <[ key := a ]> obj.

End Obj.

(** ** Outcomes, events and the effect monad *)

Inductive Error :=
| MODULE_NOT_FOUND
| TypeError
| URIError
| OtherError (what : string).

(** A call either returns or throws (an [async] member: resolves or
    rejects). *)
Inductive Outcome (A : Type) :=
| Returned (a : A)
| Thrown (e : Error).
Arguments Returned {A} a.
Arguments Thrown {A} e.

(** What the plugin does to its surroundings, in order. *)
Inductive Event :=
| Logged (msg : string)        (* this.logger(msg) *)
| LoadCalled (id : string)     (* the middleware enters this._load(id) *)
| Ended (body : string)        (* res.end(body) *)
| NextCalled.                  (* next() *)

Definition M (A : Type) : Type := list Event -> Outcome A * list Event.

Definition ret {A} (a : A) : M A := fun tr => (Returned a, tr).

Definition bind {A B} (k : A -> M B) (c : M A) : M B :=
  fun tr =>
    match c tr with
    | (Returned a, tr') => k a tr'
    | (Thrown e, tr') => (Thrown e, tr')
    end.

#[global] Instance M_ret : MRet M := @ret.
#[global] Instance M_bind : MBind M := @bind.

Definition emit (e : Event) : M unit := fun tr => (Returned tt, tr ++ [e]).

Definition lift {A} (o : Outcome A) : M A := fun tr => (o, tr).

(** ** The types of [./types] and the surroundings of the plugin *)

(** Template data, a [Record<string, unknown>]: [Value] stands for the
    values a template is rendered with. *)
Abbreviation VirtualHtmlTemplateData Value := (gmap string Value).

Section Model.

Context {Value : Type}.

Definition VirtualHtmlTemplateRender : Type :=
  string -> VirtualHtmlTemplateData Value -> M string.

(** Modelled from the spec: [./types] is not part of the sources at hand.
    The records below have the fields the code reads from them, optional
    where the code supplies a default. *)
Record PageObject := {
  template : string;
  data : option (VirtualHtmlTemplateData Value);
  render : option VirtualHtmlTemplateRender;
}.

Record VirtualPageOptions := {
  entry : string;
  title : option string;
  body : option string;
}.

(** [VirtualHtmlPage | VirtualPageOptions]: a template path, an object
    with a [template] key, or an object with an [entry] key. *)
Inductive Page :=
| PagePath (path : string)
| PageTemplate (page : PageObject)
| PageVirtual (page : VirtualPageOptions).

(** Modelled from the spec: the enum [POS] of [./types] is not part of
    the sources at hand; a position is before, after, or any other
    value. *)
Inductive POS :=
| before
| after
| unrecognized (raw : string).

Record InjectCode := {
  pos : POS;
  find : string;
  replacement : string;
}.

Record HtmlPluginOptions := {
  opt_pages : option (gmap string Page);   (* absent or [true]: discover *)
  opt_indexPage : option string;
  opt_render : option VirtualHtmlTemplateRender;
  opt_data : option (VirtualHtmlTemplateData Value);
  opt_extraGlobPattern : option (list string);
  opt_injectCode : option (gmap string InjectCode);
}.

Record Request := {
  originalUrl : option string;
  url : option string;
}.

(** What the plugin calls but does not define. *)
Record Host := {
  process_cwd : string;
  normalizePath : string -> string;                 (* ./utils *)
  path_resolve : string -> string -> string;        (* path.resolve *)
  existsSync : string -> bool;                      (* fs.existsSync *)
  readFile : string -> Outcome string;              (* fs.promises.readFile *)
  (* require('ejs').render with delimiter % and root process.cwd();
     [None] when require.resolve('ejs') fails with MODULE_NOT_FOUND *)
  ejs_render :
    option (string -> VirtualHtmlTemplateData Value -> Outcome string);
  glob_sync : list string -> list string;           (* fast-glob *)
  decodeURI : string -> Outcome string;
  transformIndexHtml : string -> string -> Outcome string;
}.

End Model.

Arguments PageObject : clear implicits.
Arguments Page : clear implicits.
Arguments HtmlPluginOptions : clear implicits.
Arguments Host : clear implicits.
Arguments VirtualHtmlTemplateRender : clear implicits.

(** ** [Base.ts], the current revision *)

Module Base.
Section Base.

Context {Value : Type}.
Variable host : Host Value.

Local Abbreviation Data := (VirtualHtmlTemplateData Value).
Local Abbreviation Render := (VirtualHtmlTemplateRender Value).

Fixpoint unlines (ls : list string) : string :=
  match ls with
  | [] => EmptyString
  | l :: ls' => l +:+ JS.NL +:+ unlines ls'
  end.

Definition DEFAULT_GLOB_PATTERN : list string :=
  ["**/*.html"; "!node_modules/**/*.html"; "!.**/*.html"].

Definition VIRTUAL_HTML_CONTENT : string :=
  JS.NL +:+ unlines [
    "<!DOCTYPE html>";
    "<html lang=" +:+ JS.DQ +:+ "en" +:+ JS.DQ +:+ ">";
    "<head>";
    "    <meta charset=" +:+ JS.DQ +:+ "UTF-8" +:+ JS.DQ +:+ ">";
    "    <title>#TITLE#</title>";
    "    <script src=" +:+ JS.DQ +:+ "#ENTRY#" +:+ JS.DQ +:+ " type="
      +:+ JS.DQ +:+ "module" +:+ JS.DQ +:+ "></script>";
    "</head>";
    "<body>";
    "#BODY#";
    "</body>";
    "</html>"
  ].

Definition DEFAULT_INJECTCODE_ALL : string := "*".

(** The fields of an instance.  [_config] is assigned by the build tool
    after construction; only its [root] is read. *)
Record t := {
  _config_root : option string;
  _pages : gmap string (Page Value);
  _indexPage : string;
  _globalRender : Render;
  _globalData : Data;
  _injectCode : gmap string InjectCode;
}.

Definition cwd : string := normalizePath host (process_cwd host).

(** [createFilter(/\.html|\/$/)] of the build tool: an id with a NUL
    character is refused, backslashes are read as slashes, and the id
    passes when the pattern matches it somewhere. *)
Definition _filter (id : string) : bool :=
  JS.lacks JS.nul id &&
  (JS.includes ".html" (JS.slashes id) || JS.endsWith "/" (JS.slashes id)).

Definition defaultRender : Render :=
  fun template _data =>
    match ejs_render host with
    | Some render =>
        match render template _data with
        | Returned html => mret html
        | Thrown _ => mret template
        end
    | None => mret template
    end.

(** A run of calls of a render function, one after the other. *)
Fixpoint renderAll (render : Render) (calls : list (string * Data))
  : M (list string) :=
  match calls with
  | [] => mret []
  | (template, data) :: calls' =>
      html ← render template data;
      htmls ← renderAll render calls';
      mret (html :: htmls)
  end.

Definition set_add (x : string) (set : list string) : list string :=
  if bool_decide (x ∈ set) then set else set ++ [x].

(** The patterns handed to the glob; a [Set] keeps insertion order. *)
Definition realPattern (extraGlobPattern : list string) : list string :=
  if Nat.eqb (length extraGlobPattern) 0 then DEFAULT_GLOB_PATTERN
  else
    let set := foldl (fun set dg => set_add dg set) [] DEFAULT_GLOB_PATTERN in
    foldl (fun set dg => set_add dg set) set extraGlobPattern.

(** The table built from the files the glob returns; a later file with
    the same base name overwrites an earlier one. *)
Definition collect (files : list string) : gmap string (Page Value) :=
  foldl (fun pages file =>
           Obj.assign
             (JS.replace ".html" EmptyString (JS.last_segment JS.slash file))
             (PagePath ("/" +:+ file)) pages)
        ∅ files.

Definition findAllHtmlInProject (extraGlobPattern : list string)
  : gmap string (Page Value) :=
  collect (glob_sync host (realPattern extraGlobPattern)).

Definition constructor (o : HtmlPluginOptions Value) : t := {|
  _config_root := None;
  _pages :=
    match opt_pages o with
    | None => findAllHtmlInProject (default [] (opt_extraGlobPattern o))
    | Some pagesObj => pagesObj
    end;
  _indexPage := default "index" (opt_indexPage o);
  _globalRender := default defaultRender (opt_render o);
  _globalData := default ∅ (opt_data o);
  _injectCode := default ∅ (opt_injectCode o);
|}.

Definition addTrailingSlash (path : string) : string :=
  let _path := normalizePath host (JS.replace cwd EmptyString path) in
  if JS.endsWith "/" _path then _path else _path +:+ "/".

(** The second pattern [getHtmlName] removes: the root with a trailing
    slash, or nothing when the root is absent or is the working
    directory. *)
Definition rootPrefix (root : option string) : string :=
  let _root := JS.replace cwd EmptyString (default EmptyString root) in
  if negb (String.eqb _root EmptyString)
  then addTrailingSlash _root else EmptyString.

Definition getHtmlName (id : string) (root : option string) : string :=
  let _id := JS.replace cwd EmptyString id in
  let result :=
    JS.replace (rootPrefix root) EmptyString
      (JS.replace ".html" EmptyString _id) in
  if JS.startsWith "/" result
  then JS.substring 1 (String.length result) result
  else result.

(** A page name with no slash, no dot and no NUL character. *)
Definition bare (n : string) : bool :=
  JS.lacks JS.slash n && JS.lacks JS.dot n && JS.lacks JS.nul n.

Definition generateUrl (url : option string) : string :=
  match url with
  | None => "/"
  | Some url =>
      if String.eqb url EmptyString then "/"
      else match JS.indexOf "?" url with
           | Some (S _) => JS.first_segment JS.question url
           | _ => url
           end
  end.

Definition readTemplate (templatePath : string) : M string :=
  lift (readFile host templatePath).

Definition renderTemplate (templatePath : string) (render : Render)
    (data : Data) : M string :=
  code ← readTemplate templatePath; render code data.

Definition missingTemplate : string :=
  "[vite-plugin-virtual-html]: template file must exist!".

Definition readHtml (page : PageObject Value) : M string :=
  let templatePath :=
    path_resolve host cwd ("." +:+ template page) in
  if negb (existsSync host templatePath) then
    emit (Logged missingTemplate);; mret EmptyString
  else
    renderTemplate templatePath
      (default defaultRender (render page)) (default ∅ (data page)).

(** [{...globalData, ...data}]: the keys of [data] win. *)
Definition generatePageOptions (page : PageObject Value + string)
    (globalData : Data) (globalRender : Render) : PageObject Value :=
  match page with
  | inr path =>
      {| template := path;
         data := Some globalData;
         render := Some globalRender |}
  | inl page =>
      {| template := template page;
         data := Some (default ∅ (data page) ∪ globalData);
         render := Some (default globalRender (render page)) |}
  end.

Definition pos_eqb (a b : POS) : bool :=
  match a, b with
  | before, before | after, after => true
  | unrecognized x, unrecognized y => String.eqb x y
  | _, _ => false
  end.

Definition generateInjectCode (rule : InjectCode) (code : string) : string :=
  if pos_eqb (pos rule) after then
    JS.replace (find rule)
      (find rule +:+ JS.NL +:+ replacement rule) code
  else if pos_eqb (pos rule) before then
    JS.replace (find rule)
      (JS.NL +:+ replacement rule +:+ JS.NL +:+ find rule) code
  else code.

Definition generateVirtualPage (vPages : VirtualPageOptions) : string :=
  let title := default EmptyString (title vPages) in
  let body :=
    default ("<div id=" +:+ JS.DQ +:+ "app" +:+ JS.DQ +:+ "></div>")
            (body vPages) in
  JS.replace "#BODY#" body
    (JS.replace "#TITLE#" title
       (JS.replace "#ENTRY#" (entry vPages) VIRTUAL_HTML_CONTENT)).

Section Instance.

Variable this : t.

(** A page is falsy for [||] when it is the empty string. *)
Definition truthy (p : option (Page Value)) : bool :=
  match p with
  | None => false
  | Some (PagePath path) => negb (String.eqb path EmptyString)
  | Some _ => true
  end.

(** What [this._pages[key]] gives: an inherited member is a function or
    an object, and truthy. *)
Definition truthyMember (m : option (Obj.Member (Page Value))) : bool :=
  match m with
  | Some (Obj.Own page) => truthy (Some page)
  | Some (Obj.Inherited _) => true
  | None => false
  end.

Definition or_else (a b : option (Obj.Member (Page Value)))
  : option (Obj.Member (Page Value)) :=
  if truthyMember a then a else b.

(** The four keys [_load] looks up, in order. *)
Definition candidates (newId : string) : list string :=
  [ newId;
    JS.replace "//" "/" (newId +:+ "/");
    JS.replace "//" "/" (newId +:+ "/index");
    JS.replace "//" "/" (JS.replace "index" EmptyString newId) ].

Definition pageOption (newId : string) : option (Obj.Member (Page Value)) :=
  let maybeIndexName1 := JS.replace "//" "/" (newId +:+ "/") in
  let maybeIndexName2 := JS.replace "//" "/" (newId +:+ "/index") in
  let maybeIndexName3 :=
    JS.replace "//" "/" (JS.replace "index" EmptyString newId) in
  or_else (Obj.member (_pages this) newId)
    (or_else (Obj.member (_pages this) maybeIndexName1)
       (or_else (Obj.member (_pages this) maybeIndexName2)
          (Obj.member (_pages this) maybeIndexName3))).

(** What [_load] does with the page it found. *)
Definition loadPage (pageOption : Page Value) : M (option string) :=
  match pageOption with
  | PagePath path =>
      html ← readHtml (generatePageOptions (inr path)
                         (_globalData this) (_globalRender this));
      mret (Some html)
  | PageTemplate page =>
      html ← readHtml (generatePageOptions (inl page)
                         (_globalData this) (_globalRender this));
      mret (Some html)
  | PageVirtual page => mret (Some (generateVirtualPage page))
  end.

Definition _load (id : string) : M (option string) :=
  if _filter id then
    let newId := getHtmlName id (_config_root this) in
    match pageOption newId with
    | Some (Obj.Own page) => loadPage page
    (* an inherited member is no string and has no template or entry *)
    | Some (Obj.Inherited _) => mret None
    | None => mret None
    end
  else mret None.

Definition _transform (code id : string) : option string :=
  if _filter id then
    let key := JS.last_segment JS.slash id in
    let _code := code in
    (* an inherited member has no pos: generateInjectCode returns the code *)
    let _code :=
      match Obj.member (_injectCode this) DEFAULT_INJECTCODE_ALL with
      | Some (Obj.Own rule) => generateInjectCode rule code
      | Some (Obj.Inherited _) => code
      | None => _code
      end in
    let _code :=
      match Obj.member (_injectCode this) key with
      | Some (Obj.Own rule) => generateInjectCode rule code
      | Some (Obj.Inherited _) => code
      | None => _code
      end in
    Some _code
  else None.

(** The chaining the specification describes for [_transform]: the
    wildcard rule, then the rule of the file name on what the first
    produced. *)
Definition _transform_chained (code id : string) : option string :=
  if _filter id then
    let key := JS.last_segment JS.slash id in
    let afterAll :=
      match _injectCode this !! DEFAULT_INJECTCODE_ALL with
      | Some rule => generateInjectCode rule code
      | None => code
      end in
    Some match _injectCode this !! key with
         | Some rule => generateInjectCode rule afterAll
         | None => afterAll
         end
  else None.

End Instance.

End Base.
Arguments t : clear implicits.
End Base.

(** ** [Base.ts], the members of the earlier revision that differ *)

Module Legacy.
Section Legacy.

Context {Value : Type}.
Variable host : Host Value.

Local Abbreviation Data := (VirtualHtmlTemplateData Value).

(** The mutable part of an instance. *)
Record State := {
  alreadyShowEjsError : bool;
  events : list Event;
}.

Definition _transform (this : Base.t Value) (code id : string) : option string :=
  if JS.includes ".html" id then
    let key := JS.last_segment JS.slash id in
    let _code := code in
    let _code :=
      match Obj.member (Base._injectCode this) key with
      | Some (Obj.Own rule) => Base.generateInjectCode rule code
      | Some (Obj.Inherited _) => code
      | None => _code
      end in
    let _code :=
      match Obj.member (Base._injectCode this)
              Base.DEFAULT_INJECTCODE_ALL with
      | Some (Obj.Own rule) => Base.generateInjectCode rule code
      | Some (Obj.Inherited _) => code
      | None => _code
      end in
    Some _code
  else None.

Definition getHtmlName (id : string) (root : option string) : string :=
  let _id := JS.replace (Base.cwd host) EmptyString id in
  let result :=
    JS.replace (Base.rootPrefix host root) EmptyString
      (JS.substring 0 (String.length _id - String.length ".html") _id) in
  if JS.startsWith "/" result then JS.skip 1 result else result.

Definition realPattern (extraGlobPattern : list string) : list string :=
  if Nat.eqb (length extraGlobPattern) 0 then Base.DEFAULT_GLOB_PATTERN
  else extraGlobPattern.

Definition ejsMissing : string :=
  "[vite-plugin-virtual-html]: Module 'ejs' is not found! If you want to use it, please install it. Otherwise please ignore this error!".

(** [defaultRender] is a method here, and reads [this] in its [catch]
    block.  [bound] tells whether it runs as a method call on the
    instance, or as a function value on its own, where [this] is
    undefined and reading a field of it throws. *)
Definition defaultRender (bound : bool) (template : string) (data : Data)
    (st : State) : Outcome string * State :=
  let caught (e : Error) :=
    match e with
    | MODULE_NOT_FOUND =>
        if bound then
          if alreadyShowEjsError st then (Returned template, st)
          else (Returned template,
                {| alreadyShowEjsError := true;
                   events := events st ++ [Logged ejsMissing] |})
        else (Thrown TypeError, st)
    | _ => (Returned template, st)
    end in
  match ejs_render host with
  | None => caught MODULE_NOT_FOUND
  | Some render =>
      match render template data with
      | Returned html => (Returned html, st)
      | Thrown e => caught e
      end
  end.

Fixpoint renderAll (bound : bool) (calls : list (string * Data))
    (st : State) : list (Outcome string) * State :=
  match calls with
  | [] => ([], st)
  | (template, data) :: calls' =>
      let '(o, st') := defaultRender bound template data st in
      let '(os, st'') := renderAll bound calls' st' in
      (o :: os, st'')
  end.

(** How many times the warning about [ejs] was logged. *)
Fixpoint warnings (tr : list Event) : nat :=
  match tr with
  | [] => 0
  | Logged msg :: tr' =>
      (if String.eqb msg ejsMissing then 1 else 0) + warnings tr'
  | _ :: tr' => warnings tr'
  end.

Definition fresh : State :=
  {| alreadyShowEjsError := false; events := [] |}.

End Legacy.
End Legacy.

(** ** [Serve.ts] *)

Module Serve.
Section Serve.

Context {Value : Type}.
Variable host : Host Value.

(** [Serve extends Base]; [_rewrites] only reaches the history-fallback
    module and is left out. *)
Record t := {
  base : Base.t Value;
  _urlTransformer : option (string -> Request -> string);
}.

Variable this : t.

Definition next : M unit := emit NextCalled.

(** The url the handler works on, before the html test. *)
Definition effectiveUrl (req : Request) : M string :=
  let originalUrl := originalUrl req in
  let reqUrl := url req in
  url ← lift (decodeURI host
                (Base.generateUrl
                   (match originalUrl with
                    | Some o => if JS.endsWith "/" o then originalUrl else reqUrl
                    | None => reqUrl
                    end)));
  mret (match _urlTransformer this with
        | Some transformer => transformer url req
        | None => url
        end).

(** The end of the handler: inject, hand the page to the server, and
    call [next] in every case. *)
Definition deliver (url : string) (loaded : option string) : M unit :=
  let htmlCode := default EmptyString loaded in
  match Base._transform (base this) htmlCode url with
  | None => next
  | Some transformResult =>
      html ← lift (transformIndexHtml host url transformResult);
      emit (Ended html);;
      next
  end.

(** The handler registered by [_configureServer]. *)
Definition middleware (req : Request) : M unit :=
  url ← effectiveUrl req;
  if negb (JS.endsWith ".html" url) && negb (JS.endsWith "/" url)
     && negb (String.eqb url "/")
  then next
  else
    let url :=
      if String.eqb url "/" || String.eqb url "/index.html"
      then "/" +:+ Base._indexPage (base this) +:+ ".html"
      else url in
    emit (LoadCalled (normalizePath host url));;
    loaded ← Base._load host (base this) (normalizePath host url);
    deliver url loaded.

End Serve.
End Serve.

(** ** A concrete host and plugin, for running the model *)

Module Demo.

(** A project at [/home/dev/site] with no file on disk and no [ejs]. *)
Definition host : Host string := {|
  process_cwd := "/home/dev/site";
  normalizePath := JS.slashes;
  path_resolve := fun from to => from +:+ "/" +:+ to;
  existsSync := fun _ => false;
  readFile := fun _ => Thrown (OtherError "ENOENT");
  ejs_render := None;
  glob_sync := fun _ => [];
  decodeURI := fun s => Returned s;
  transformIndexHtml := fun _ html => Returned html;
|}.

Definition options (pages : gmap string (Page string))
    (injectCode : gmap string InjectCode) : HtmlPluginOptions string := {|
  opt_pages := Some pages;
  opt_indexPage := None;
  opt_render := None;
  opt_data := None;
  opt_extraGlobPattern := None;
  opt_injectCode := Some injectCode;
|}.

Definition plugin (pages : gmap string (Page string))
    (injectCode : gmap string InjectCode) : Base.t string :=
  Base.constructor host (options pages injectCode).

Definition about : gmap string (Page string) :=
  {[ "about" := PagePath "/about.html" ]}.

Definition main : VirtualPageOptions :=
  {| entry := "/src/main.ts"; title := Some "App"; body := None |}.

(** The page of [about], stored under the key of its index file. *)
Definition indexed : gmap string (Page string) :=
  {[ "about/index" := PagePath "/about/index.html" ]}.

(** An empty template path under [a], a virtual page under [a/]. *)
Definition shadowed : gmap string (Page string) :=
  {[ "a" := PagePath EmptyString; "a/" := PageVirtual main ]}.

(** Two entries that both answer [/about.html]. *)
Definition doubled : gmap string (Page string) :=
  {[ "about" := PagePath "/about.html"; "about/" := PageVirtual main ]}.

Definition X_after_A : InjectCode :=
  {| pos := after; find := "A"; replacement := "X" |}.

Definition Y_after_A : InjectCode :=
  {| pos := after; find := "A"; replacement := "Y" |}.

Definition X_before_A : InjectCode :=
  {| pos := before; find := "A"; replacement := "X" |}.

(** A wildcard rule and a rule for [a.html]. *)
Definition rules : gmap string InjectCode :=
  {[ "*" := X_after_A; "a.html" := Y_after_A ]}.

Definition aboutPage : PageObject string :=
  {| template := "/about.html"; data := None; render := None |}.

(** A request for a module, and a request for the site root. *)
Definition script : Request :=
  {| originalUrl := Some "/src/main.ts?t=1";
     url := Some "/src/main.ts?t=1" |}.

Definition root : Request :=
  {| originalUrl := Some "/"; url := Some "/" |}.

Definition server (pages : gmap string (Page string)) : Serve.t := {|
  Serve.base := plugin pages ∅;
  Serve._urlTransformer := None;
|}.

End Demo.

(** ** Names of discovered pages, and a second concrete host *)

Module Discover.

(** The key [findAllHtmlInProject] stores a file under: its last path
    segment, with the first [.html] removed. *)
Definition pageName (file : string) : string :=
  JS.replace ".html" EmptyString (JS.last_segment JS.slash file).

End Discover.

(** The four pieces of [VIRTUAL_HTML_CONTENT] around its three
    placeholders, and the body a virtual page gets when it names none. *)
Module Boilerplate.

Definition upToTitle : string :=
  JS.NL +:+ "<!DOCTYPE html>" +:+ JS.NL +:+ "<html lang=" +:+ JS.DQ +:+ "en"
    +:+ JS.DQ +:+ ">" +:+ JS.NL +:+ "<head>" +:+ JS.NL
    +:+ "    <meta charset=" +:+ JS.DQ +:+ "UTF-8" +:+ JS.DQ +:+ ">"
    +:+ JS.NL +:+ "    <title>".

Definition titleToEntry : string :=
  "</title>" +:+ JS.NL +:+ "    <script src=" +:+ JS.DQ.

Definition entryToBody : string :=
  JS.DQ +:+ " type=" +:+ JS.DQ +:+ "module" +:+ JS.DQ +:+ "></script>"
    +:+ JS.NL +:+ "</head>" +:+ JS.NL +:+ "<body>" +:+ JS.NL.

Definition afterBody : string :=
  JS.NL +:+ "</body>" +:+ JS.NL +:+ "</html>" +:+ JS.NL.

Definition defaultBody : string :=
  "<div id=" +:+ JS.DQ +:+ "app" +:+ JS.DQ +:+ "></div>".

Definition hash : ascii := ascii_of_nat 35.

End Boilerplate.

Module Site.

(** A project at [/srv/site] with two html files on disk, one of them in
    a directory, and an [ejs] that marks what it renders. *)
Definition files : list string := ["about.html"; "docs/guide.html"].

Definition host : Host string := {|
  process_cwd := "/srv/site";
  normalizePath := JS.slashes;
  path_resolve := fun from to => from +:+ "/" +:+ to;
  existsSync := fun path => String.eqb path "/srv/site/./about.html";
  readFile := fun path =>
    if String.eqb path "/srv/site/./about.html"
    then Returned "<h1>About</h1>"
    else Thrown (OtherError "ENOENT");
  ejs_render := Some (fun template _ => Returned ("ejs:" +:+ template));
  glob_sync := fun _ => files;
  decodeURI := fun s =>
    if JS.includes "%" s then Thrown URIError else Returned s;
  transformIndexHtml := fun _ html => Returned ("<!-- vite -->" +:+ html);
|}.

(** The same project without [ejs]. *)
Definition plain : Host string := {|
  process_cwd := process_cwd host;
  normalizePath := normalizePath host;
  path_resolve := path_resolve host;
  existsSync := existsSync host;
  readFile := readFile host;
  ejs_render := None;
  glob_sync := glob_sync host;
  decodeURI := decodeURI host;
  transformIndexHtml := transformIndexHtml host;
|}.

(** Options that leave the pages to discovery. *)
Definition discover : HtmlPluginOptions string := {|
  opt_pages := None;
  opt_indexPage := None;
  opt_render := None;
  opt_data := None;
  opt_extraGlobPattern := None;
  opt_injectCode := None;
|}.

Definition upper : VirtualHtmlTemplateRender string :=
  fun template data =>
    mret (default "untitled" (data !! "title") +:+ ":" +:+ template).

(** A page with data and a render function of its own. *)
Definition aboutPage : PageObject string := {|
  template := "/about.html";
  data := Some {[ "title" := "About us" ]};
  render := Some upper;
|}.

Definition globals : gmap string string :=
  {[ "title" := "Site"; "lang" := "en" ]}.

Definition plugin (h : Host string) (pages : gmap string (Page string))
  : Base.t string := {|
  Base._config_root := None;
  Base._pages := pages;
  Base._indexPage := "index";
  Base._globalRender := Base.defaultRender h;
  Base._globalData := globals;
  Base._injectCode := {[ "guide.html" := Demo.X_after_A ]};
|}.

Definition server (h : Host string) (pages : gmap string (Page string))
  : Serve.t := {|
  Serve.base := plugin h pages;
  Serve._urlTransformer := None;
|}.

Definition request (u : string) : Request :=
  {| originalUrl := Some u; url := Some u |}.

(** A virtual page stored under a directory key. *)
Definition docs : gmap string (Page string) :=
  {[ "docs/" := PageVirtual Demo.main ]}.

End Site.

(** ** Facts about the string primitives *)

Module JSFacts.
Import JS.
#[local] Arguments String.append !_ _ /.

Lemma append_empty_r (s : string) : s +:+ EmptyString = s.
Proof. induction s as [|a s IH]; simpl; [reflexivity | now rewrite IH]. Qed.

Lemma append_assoc (a b c : string) : (a +:+ b) +:+ c = a +:+ (b +:+ c).
Proof. induction a as [|x a IH]; simpl; [reflexivity | now rewrite IH]. Qed.

Lemma append_snoc (b : string) (a : ascii) (s : string) :
  (b +:+ String a EmptyString) +:+ s = b +:+ String a s.
Proof. now rewrite append_assoc. Qed.

Lemma startsWith_app (p t : string) : startsWith p (p +:+ t) = true.
Proof.
  induction p as [|a p IH]; simpl; [reflexivity |].
  now rewrite Ascii.eqb_refl, IH.
Qed.

Lemma skip_app (p t : string) : skip (String.length p) (p +:+ t) = t.
Proof. induction p as [|a p IH]; simpl; [now destruct t | exact IH]. Qed.

Lemma take_all (s : string) : take (String.length s) s = s.
Proof. induction s as [|a s IH]; simpl; [reflexivity | now rewrite IH]. Qed.

Lemma replace_from_eq (p r b s : string) :
  replace_from p r b s =
  if startsWith p s then
    getSubstitution p b (skip (String.length p) s) r
      +:+ skip (String.length p) s
  else match s with
       | EmptyString => EmptyString
       | String a s' =>
           String a (replace_from p r (b +:+ String a EmptyString) s')
       end.
Proof. now destruct s. Qed.

Lemma indexOf_eq (p s : string) :
  indexOf p s =
  if startsWith p s then Some 0
  else match s with
       | EmptyString => None
       | String _ s' => option_map S (indexOf p s')
       end.
Proof. now destruct s. Qed.

Lemma getSubstitution_literal (m b a r : string) :
  literal r = true -> getSubstitution m b a r = r.
Proof.
  induction r as [|c r IH]; simpl; [reflexivity |].
  intros [Hc Hr]%andb_prop.
  apply negb_true_iff in Hc. rewrite Hc, IH; auto.
Qed.

(** The occurrence that is replaced is the first one. *)
Lemma replace_from_first (p r : string) :
  forall pre b post,
    indexOf p (pre +:+ p +:+ post) = Some (String.length pre) ->
    replace_from p r b (pre +:+ p +:+ post) =
    pre +:+ getSubstitution p (b +:+ pre) post r +:+ post.
Proof.
  induction pre as [|a pre IH]; intros b post H.
  - simpl. rewrite replace_from_eq, startsWith_app, skip_app.
    now rewrite append_empty_r.
  - rewrite replace_from_eq. rewrite indexOf_eq in H.
    destruct (startsWith p (String a pre +:+ p +:+ post)); [discriminate |].
    simpl in *. f_equal.
    rewrite IH, append_snoc; [reflexivity |].
    destruct (indexOf p (pre +:+ p +:+ post)); simpl in H; congruence.
Qed.

Lemma replace_from_absent (p r : string) :
  forall s b, indexOf p s = None -> replace_from p r b s = s.
Proof.
  induction s as [|a s IH]; intros b H;
    rewrite replace_from_eq; rewrite indexOf_eq in H.
  - now destruct (startsWith p EmptyString).
  - destruct (startsWith p (String a s)); [discriminate |].
    rewrite IH; [reflexivity |].
    now destruct (indexOf p s).
Qed.

Lemma replace_absent (p r s : string) :
  includes p s = false -> replace p r s = s.
Proof.
  unfold includes, replace. intros H. apply replace_from_absent.
  now destruct (indexOf p s).
Qed.

Lemma replace_empty_empty (s : string) :
  replace EmptyString EmptyString s = s.
Proof. unfold replace. rewrite replace_from_eq. now destruct s. Qed.

(** A pattern is not found in a text that lacks its first character. *)
Lemma indexOf_lacks (c : ascii) (p : string) :
  forall pre t,
    lacks c pre = true ->
    indexOf (String c p) (pre +:+ t) =
    option_map (Nat.add (String.length pre)) (indexOf (String c p) t).
Proof.
  induction pre as [|a pre IH]; intros t H.
  - simpl. now destruct (indexOf (String c p) t).
  - simpl in H. apply andb_prop in H as [Ha Hpre].
    apply negb_true_iff in Ha.
    rewrite indexOf_eq. simpl.
    rewrite Ascii.eqb_sym, Ha. simpl.
    rewrite IH by assumption.
    now destruct (indexOf (String c p) t).
Qed.

Lemma includes_lacks (c : ascii) (p pre t : string) :
  lacks c pre = true ->
  includes (String c p) (pre +:+ t) = includes (String c p) t.
Proof.
  intros H. unfold includes. rewrite indexOf_lacks by assumption.
  now destruct (indexOf (String c p) t).
Qed.

Lemma replace_from_lacks (c : ascii) (p r : string) :
  forall pre b t,
    lacks c pre = true ->
    replace_from (String c p) r b (pre +:+ t) =
    pre +:+ replace_from (String c p) r (b +:+ pre) t.
Proof.
  induction pre as [|a pre IH]; intros b t H.
  - simpl. now rewrite append_empty_r.
  - simpl in H. apply andb_prop in H as [Ha Hpre].
    apply negb_true_iff in Ha.
    rewrite replace_from_eq. simpl.
    rewrite Ascii.eqb_sym, Ha. simpl.
    now rewrite IH, append_snoc.
Qed.

Lemma lacks_app (c : ascii) (a b : string) :
  lacks c (a +:+ b) = lacks c a && lacks c b.
Proof.
  induction a as [|x a IH]; simpl; [reflexivity |].
  now rewrite IH, andb_assoc.
Qed.

Lemma slashes_app (a b : string) :
  slashes (a +:+ b) = slashes a +:+ slashes b.
Proof. induction a as [|x a IH]; simpl; [reflexivity | now rewrite IH]. Qed.

Lemma includes_app (p pre post : string) :
  includes p (pre +:+ p +:+ post) = true.
Proof.
  unfold includes. induction pre as [|a pre IH].
  - change (EmptyString +:+ p +:+ post) with (p +:+ post).
    rewrite indexOf_eq, startsWith_app. reflexivity.
  - change (String a pre +:+ p +:+ post) with (String a (pre +:+ p +:+ post)).
    rewrite indexOf_eq.
    destruct (startsWith p (String a (pre +:+ p +:+ post))); [reflexivity |].
    now destruct (indexOf p (pre +:+ p +:+ post)).
Qed.

Lemma endsWith_eq (p s : string) :
  endsWith p s =
  String.eqb p s ||
  match s with
  | EmptyString => false
  | String _ s' => endsWith p s'
  end.
Proof. now destruct s. Qed.

Lemma endsWith_app (p pre : string) : endsWith p (pre +:+ p) = true.
Proof.
  induction pre as [|a pre IH].
  - change (EmptyString +:+ p) with p.
    now rewrite endsWith_eq, String.eqb_refl.
  - change (String a pre +:+ p) with (String a (pre +:+ p)).
    rewrite endsWith_eq, IH. apply orb_true_r.
Qed.

Lemma startsWith_before (c : ascii) (t : string) :
  forall p s,
    lacks c p = true ->
    p <> EmptyString ->
    startsWith p (s +:+ String c t) = startsWith p s.
Proof.
  induction p as [|x p IH]; intros s Hp Hne; [contradiction |].
  simpl in Hp. apply andb_prop in Hp as [Hx Hp].
  apply negb_true_iff in Hx.
  destruct s as [|a s]; simpl.
  - now rewrite Hx.
  - destruct p as [|y p]; [reflexivity |].
    rewrite IH; [reflexivity | exact Hp | discriminate].
Qed.

(** A pattern that is not in [s] and does not hold [c] is not found
    before the [c] that follows [s]. *)
Lemma replace_from_past (c : ascii) (p r t : string) :
  lacks c p = true ->
  p <> EmptyString ->
  forall s b,
    indexOf p s = None ->
    replace_from p r b (s +:+ String c t)
    = s +:+ replace_from p r (b +:+ s) (String c t).
Proof.
  intros Hp Hne. induction s as [|a s IH]; intros b Hs.
  - simpl. now rewrite append_empty_r.
  - rewrite indexOf_eq in Hs.
    destruct (startsWith p (String a s)) eqn:E; [discriminate |].
    change (String a s +:+ String c t) with (String a (s +:+ String c t)).
    rewrite replace_from_eq.
    change (String a (s +:+ String c t)) with (String a s +:+ String c t).
    rewrite (startsWith_before c t p (String a s) Hp Hne), E.
    simpl. rewrite IH, append_snoc; [reflexivity |].
    now destruct (indexOf p s).
Qed.

Lemma includes_false (p s : string) :
  includes p s = false <-> indexOf p s = None.
Proof. unfold includes. destruct (indexOf p s); split; congruence. Qed.

(** A pattern without [c] that is not in [s] is found in [s] followed by
    [c] and [t] only where it is found in [c] and [t]. *)
Lemma indexOf_past (c : ascii) (p t : string) :
  lacks c p = true ->
  p <> EmptyString ->
  indexOf p (String c t) = None ->
  forall s, indexOf p s = None -> indexOf p (s +:+ String c t) = None.
Proof.
  intros Hp Hne Ht. induction s as [|a s IH]; intros Hs; [exact Ht |].
  rewrite indexOf_eq in Hs.
  destruct (startsWith p (String a s)) eqn:E; [discriminate |].
  change (String a s +:+ String c t) with (String a (s +:+ String c t)).
  rewrite indexOf_eq.
  change (String a (s +:+ String c t)) with (String a s +:+ String c t).
  rewrite (startsWith_before c t p (String a s) Hp Hne), E.
  rewrite IH; [reflexivity |]. now destruct (indexOf p s).
Qed.

(** The same when the pattern starts with [c] and holds no other [c]:
    an occurrence cannot start in [s] and end after it. *)
Lemma startsWith_before_own (c a : ascii) (p s t : string) :
  lacks c p = true ->
  startsWith (String c p) (String a s +:+ String c t)
  = startsWith (String c p) (String a s).
Proof.
  intros Hp. simpl. destruct (Ascii.eqb c a); [| reflexivity]. simpl.
  destruct p as [|x p]; [reflexivity |].
  apply startsWith_before; [exact Hp | discriminate].
Qed.

Lemma replace_from_past_own (c : ascii) (p r t : string) :
  lacks c p = true ->
  forall s b,
    indexOf (String c p) s = None ->
    replace_from (String c p) r b (s +:+ String c t)
    = s +:+ replace_from (String c p) r (b +:+ s) (String c t).
Proof.
  intros Hp. induction s as [|a s IH]; intros b Hs.
  - simpl. now rewrite append_empty_r.
  - rewrite indexOf_eq in Hs.
    destruct (startsWith (String c p) (String a s)) eqn:E; [discriminate |].
    change (String a s +:+ String c t) with (String a (s +:+ String c t)).
    rewrite replace_from_eq.
    change (String a (s +:+ String c t)) with (String a s +:+ String c t).
    rewrite (startsWith_before_own c a p s t Hp), E.
    simpl. rewrite IH, append_snoc; [reflexivity |].
    now destruct (indexOf (String c p) s).
Qed.

Lemma startsWith_cons (x a : ascii) (p s : string) :
  startsWith (String x p) (String a s) = Ascii.eqb x a && startsWith p s.
Proof. reflexivity. Qed.

Lemma lacks_cons (c a : ascii) (s : string) :
  lacks c (String a s) = negb (Ascii.eqb a c) && lacks c s.
Proof. reflexivity. Qed.

(** No doubled [c] in [s], none in [t], and [t] does not start with
    [c]: no doubled [c] in [s] followed by [t]. *)
Lemma no_double_app (c : ascii) (s t : string) :
  indexOf (String c (String c EmptyString)) s = None ->
  startsWith (String c EmptyString) t = false ->
  indexOf (String c (String c EmptyString)) t = None ->
  indexOf (String c (String c EmptyString)) (s +:+ t) = None.
Proof.
  intros Hs Ht Ht'. induction s as [|a s IH]; [exact Ht' |].
  rewrite indexOf_eq in Hs.
  destruct (startsWith (String c (String c EmptyString)) (String a s))
    eqn:E; [discriminate |].
  assert (Hs' : indexOf (String c (String c EmptyString)) s = None)
    by now destruct (indexOf (String c (String c EmptyString)) s).
  change (String a s +:+ t) with (String a (s +:+ t)).
  rewrite indexOf_eq, (IH Hs').
  assert (E' : startsWith (String c (String c EmptyString))
                 (String a (s +:+ t)) = false).
  { rewrite startsWith_cons in *.
    destruct (Ascii.eqb c a); [| reflexivity]. cbn [andb] in *.
    destruct s as [|x s]; [exact Ht | exact E]. }
  now rewrite E'.
Qed.

(** When [n] followed by one [c] holds no doubled [c], the first doubled
    [c] of [n] followed by two is right after [n]. *)
Lemma double_after (c : ascii) (post : string) :
  forall n,
    indexOf (String c (String c EmptyString)) (n +:+ String c EmptyString)
      = None ->
    indexOf (String c (String c EmptyString))
      (n +:+ String c (String c EmptyString) +:+ post)
    = Some (String.length n).
Proof.
  induction n as [|a n IH]; intros H.
  - change (EmptyString +:+ String c (String c EmptyString) +:+ post)
      with (String c (String c EmptyString) +:+ post).
    now rewrite indexOf_eq, startsWith_app.
  - change (String a n +:+ String c EmptyString)
      with (String a (n +:+ String c EmptyString)) in H.
    rewrite indexOf_eq in H.
    destruct (startsWith (String c (String c EmptyString))
                (String a (n +:+ String c EmptyString))) eqn:E;
      [discriminate |].
    assert (H' : indexOf (String c (String c EmptyString))
                   (n +:+ String c EmptyString) = None)
      by now destruct (indexOf (String c (String c EmptyString))
                         (n +:+ String c EmptyString)).
    change (String a n +:+ String c (String c EmptyString) +:+ post)
      with (String a (n +:+ String c (String c EmptyString) +:+ post)).
    rewrite indexOf_eq, (IH H').
    assert (E' : startsWith (String c (String c EmptyString))
                   (String a (n +:+ String c (String c EmptyString)
                                +:+ post)) = false).
    { rewrite startsWith_cons in *.
      destruct (Ascii.eqb c a); [| reflexivity]. cbn [andb] in *.
      destruct n as [|x n]; [| exact E].
      change (EmptyString +:+ String c EmptyString)
        with (String c EmptyString) in E.
      rewrite startsWith_cons, Ascii.eqb_refl in E. discriminate E. }
    now rewrite E'.
Qed.

Lemma collapse_after (n post : string) :
  indexOf "//" (n +:+ "/") = None ->
  replace "//" "/" (n +:+ "//" +:+ post) = n +:+ "/" +:+ post.
Proof.
  intros H. unfold replace.
  now rewrite replace_from_first by now apply (double_after "/").
Qed.

(** Reading backslashes as slashes does not move a pattern that holds
    neither. *)
Lemma startsWith_slashes (p : string) :
  lacks slash p = true ->
  lacks backslash p = true ->
  forall s, startsWith p (slashes s) = startsWith p s.
Proof.
  induction p as [|x p IH]; intros Hs Hb s; [reflexivity |].
  rewrite lacks_cons in Hs, Hb.
  apply andb_prop in Hs as [Hxs Hs]. apply andb_prop in Hb as [Hxb Hb].
  apply negb_true_iff in Hxs, Hxb.
  destruct s as [|a s]; [reflexivity |].
  change (slashes (String a s))
    with (String (if Ascii.eqb a backslash then slash else a) (slashes s)).
  rewrite !startsWith_cons, IH by assumption. f_equal.
  destruct (Ascii.eqb a backslash) eqn:E; [| reflexivity].
  apply Ascii.eqb_eq in E as ->. now rewrite Hxs, Hxb.
Qed.

Lemma indexOf_slashes (p s : string) :
  lacks slash p = true ->
  lacks backslash p = true ->
  indexOf p (slashes s) = indexOf p s.
Proof.
  intros Hs Hb. induction s as [|a s IH].
  - reflexivity.
  - rewrite (indexOf_eq p (String a s)), <- IH, <- startsWith_slashes
      by assumption.
    change (slashes (String a s))
      with (String (if Ascii.eqb a backslash then slash else a) (slashes s)).
    now rewrite indexOf_eq.
Qed.

Lemma endsWith_longer (c : ascii) (t : string) :
  t <> EmptyString ->
  endsWith (String c EmptyString) t = false ->
  forall s, endsWith (String c EmptyString) (s +:+ t) = false.
Proof.
  intros Hne Ht. induction s as [|a s IH]; [exact Ht |].
  change (String a s +:+ t) with (String a (s +:+ t)).
  rewrite endsWith_eq, IH.
  assert (E : String.eqb (String c EmptyString) (String a (s +:+ t))
              = false).
  { apply String.eqb_neq. intros [= _ E]. symmetry in E.
    destruct s; [contradiction | discriminate]. }
  now rewrite E.
Qed.

Example replace_first_only :
  JS.replace "a" "b" "xaya" = "xbya".
Proof. reflexivity. Qed.

Example replace_template :
  JS.replace "b" "[$&$$$`$'$1]" "abc" = "a[b$ac$1]c".
Proof. reflexivity. Qed.

Example replace_empty_pattern :
  JS.replace EmptyString EmptyString "abc" = "abc".
Proof. reflexivity. Qed.

Example split_last :
  JS.split JS.slash "/a/b.html" = [EmptyString; "a"; "b.html"]
  /\ JS.last_segment JS.slash "/a/" = EmptyString.
Proof. split; reflexivity. Qed.

End JSFacts.

(** ** Name normalization and the lookup of [_load] *)

Module ResolveFacts.
Section ResolveFacts.

Import JS JSFacts.
#[local] Arguments String.append !_ _ /.

Context {Value : Type}.
Variable host : Host Value.

Lemma substring_tail (a : ascii) (s : string) :
  substring 1 (String.length (String a s)) (String a s) = s.
Proof.
  unfold substring. simpl String.length.
  rewrite Nat.min_l, Nat.max_r by lia.
  simpl. rewrite Nat.sub_0_r. apply take_all.
Qed.

Lemma replace_rootPrefix_inert (root : option string) (s : string) :
  Base.rootPrefix host root = EmptyString
  \/ includes (Base.rootPrefix host root) s = false ->
  replace (Base.rootPrefix host root) EmptyString s = s.
Proof.
  intros [-> | H]; [apply replace_empty_empty | now apply replace_absent].
Qed.

Lemma bare_parts (n : string) :
  Base.bare n = true ->
  lacks slash n = true /\ lacks dot n = true /\ lacks nul n = true.
Proof.
  unfold Base.bare. intros H.
  apply andb_prop in H as [H Hnul]. apply andb_prop in H as [Hs Hd].
  auto.
Qed.

(** [/name.html] is normalized to [name]. *)
Lemma getHtmlName_html (name : string) (root : option string) :
  lacks dot name = true ->
  includes (Base.cwd host) ("/" +:+ name +:+ ".html") = false ->
  Base.rootPrefix host root = EmptyString ->
  Base.getHtmlName host ("/" +:+ name +:+ ".html") root = name.
Proof.
  intros Hdot Hcwd Hroot. unfold Base.getHtmlName.
  rewrite (replace_absent _ _ _ Hcwd), Hroot.
  assert (E : replace ".html" EmptyString ("/" +:+ name +:+ ".html")
              = String "/" name).
  { change ("/" +:+ name +:+ ".html") with (String "/" name +:+ ".html").
    unfold replace. rewrite (replace_from_lacks dot) by exact Hdot.
    simpl. now rewrite append_empty_r. }
  rewrite E, replace_empty_empty. simpl startsWith. cbv iota.
  apply substring_tail.
Qed.

(** [/name] without a dot is normalized to [name]. *)
Lemma getHtmlName_plain (name : string) (root : option string) :
  lacks dot name = true ->
  includes (Base.cwd host) ("/" +:+ name) = false ->
  Base.rootPrefix host root = EmptyString ->
  Base.getHtmlName host ("/" +:+ name) root = name.
Proof.
  intros Hdot Hcwd Hroot. unfold Base.getHtmlName.
  rewrite (replace_absent _ _ _ Hcwd), Hroot.
  rewrite (replace_absent ".html").
  - rewrite replace_empty_empty. simpl startsWith. cbv iota.
    apply substring_tail.
  - change ("/" +:+ name) with (String "/" name).
    rewrite <- (append_empty_r (String "/" name)).
    rewrite (includes_lacks dot); [reflexivity | exact Hdot].
Qed.

Lemma collapse_slash (n b : string) :
  lacks slash n = true ->
  replace_from "//" "/" b (n +:+ "/") = n +:+ "/".
Proof. intros H. now rewrite (replace_from_lacks slash). Qed.

Lemma collapse_slash_slash (n b : string) :
  lacks slash n = true ->
  replace_from "//" "/" b ((n +:+ "/") +:+ "/") = n +:+ "/".
Proof.
  intros H. rewrite append_assoc. now rewrite (replace_from_lacks slash).
Qed.

Lemma collapse_index (n b : string) :
  lacks slash n = true ->
  replace_from "//" "/" b (n +:+ "/index") = n +:+ "/index".
Proof. intros H. now rewrite (replace_from_lacks slash). Qed.

Lemma collapse_slash_index (n b : string) :
  lacks slash n = true ->
  replace_from "//" "/" b ((n +:+ "/") +:+ "/index") = n +:+ "/index".
Proof.
  intros H. rewrite append_assoc. now rewrite (replace_from_lacks slash).
Qed.

Lemma filter_html (name : string) :
  lacks nul name = true ->
  Base._filter ("/" +:+ name +:+ ".html") = true.
Proof.
  intros H. unfold Base._filter.
  change ("/" +:+ name +:+ ".html") with (String "/" name +:+ ".html").
  rewrite lacks_app, slashes_app. simpl lacks. rewrite H. simpl.
  rewrite <- (append_empty_r ".html") at 2.
  change (String "/" (slashes name +:+ ".html" +:+ EmptyString))
    with (String "/" (slashes name) +:+ ".html" +:+ EmptyString).
  now rewrite includes_app.
Qed.

Lemma filter_directory (name : string) :
  lacks nul name = true ->
  Base._filter ("/" +:+ name +:+ "/") = true.
Proof.
  intros H. unfold Base._filter.
  change ("/" +:+ name +:+ "/") with (String "/" name +:+ "/").
  rewrite lacks_app, slashes_app. simpl lacks. rewrite H.
  change (slashes "/") with "/".
  rewrite endsWith_app. now rewrite orb_true_r.
Qed.

(** [/n.html] is normalized to [n] when [n] holds no [.html]. *)
Lemma getHtmlName_suffixed (n : string) (root : option string) :
  includes ".html" n = false ->
  includes (Base.cwd host) ("/" +:+ n +:+ ".html") = false ->
  Base.rootPrefix host root = EmptyString ->
  Base.getHtmlName host ("/" +:+ n +:+ ".html") root = n.
Proof.
  intros Hhtml Hcwd Hroot. unfold Base.getHtmlName.
  rewrite (replace_absent _ _ _ Hcwd), Hroot.
  assert (E : replace ".html" EmptyString ("/" +:+ n +:+ ".html")
              = String "/" n).
  { change ("/" +:+ n +:+ ".html") with (String "/" n +:+ String dot "html").
    unfold replace.
    rewrite (replace_from_past_own dot "html"); [| reflexivity |].
    - change (replace_from (String dot "html") EmptyString
                (EmptyString +:+ String "/" n) (String dot "html"))
        with EmptyString.
      apply append_empty_r.
    - apply includes_false in Hhtml. change (String dot "html") with ".html".
      rewrite indexOf_eq. change (startsWith _ (String "/" n)) with false.
      cbv iota. now rewrite Hhtml. }
  rewrite E, replace_empty_empty. simpl startsWith. cbv iota.
  apply substring_tail.
Qed.

(** [/name], where the name ends with a slash or holds none, and holds
    no [.html], is normalized to the name. *)
Lemma getHtmlName_unsuffixed (name : string) (root : option string) :
  includes ".html" name = false ->
  includes (Base.cwd host) ("/" +:+ name) = false ->
  Base.rootPrefix host root = EmptyString ->
  Base.getHtmlName host ("/" +:+ name) root = name.
Proof.
  intros Hhtml Hcwd Hroot. unfold Base.getHtmlName.
  rewrite (replace_absent _ _ _ Hcwd), Hroot.
  rewrite (replace_absent ".html").
  - rewrite replace_empty_empty. simpl startsWith. cbv iota.
    apply substring_tail.
  - apply includes_false. apply includes_false in Hhtml.
    change ("/" +:+ name) with (String "/" name).
    rewrite indexOf_eq. change (startsWith _ (String "/" name)) with false.
    cbv iota. now rewrite Hhtml.
Qed.

Lemma html_past_slash (n t : string) :
  includes ".html" n = false ->
  includes ".html" (String slash t) = false ->
  includes ".html" (n +:+ String slash t) = false.
Proof.
  intros Hn Ht. apply includes_false. apply includes_false in Hn, Ht.
  apply (indexOf_past slash); [reflexivity | discriminate | exact Ht
                               | exact Hn].
Qed.

Lemma filter_suffixed (n : string) :
  lacks nul n = true -> Base._filter ("/" +:+ n +:+ ".html") = true.
Proof. apply filter_html. Qed.

(** Without a trailing slash and without [.html], an id does not pass
    the filter. *)
Lemma filter_index (n : string) :
  includes ".html" n = false ->
  Base._filter ("/" +:+ n +:+ "/index") = false.
Proof.
  intros Hn. unfold Base._filter. apply andb_false_iff. right.
  apply orb_false_iff. split.
  - apply includes_false.
    rewrite indexOf_slashes by reflexivity.
    apply includes_false.
    change ("/" +:+ n +:+ "/index") with (String "/" (n +:+ "/index")).
    apply includes_false. rewrite indexOf_eq.
    change (startsWith _ (String "/" (n +:+ "/index"))) with false.
    cbv iota.
    assert (H := html_past_slash n "index" Hn eq_refl).
    apply includes_false in H.
    change (String slash "index") with "/index" in H. now rewrite H.
  - change ("/" +:+ n +:+ "/index") with (String "/" n +:+ "/index").
    rewrite slashes_app. change (slashes "/index") with "/index".
    apply (endsWith_longer "/"); [discriminate | reflexivity].
Qed.

(** The derived keys of a name [n] that, followed by a slash, holds no
    doubled slash. *)
Section Keys.

Variable n : string.
Hypothesis Hn : includes "//" (n +:+ "/") = false.

Lemma key_slash : replace "//" "/" (n +:+ "/") = n +:+ "/".
Proof. now apply replace_absent. Qed.

Lemma key_tail (t : string) :
  startsWith "/" t = false ->
  indexOf "//" t = None ->
  replace "//" "/" (n +:+ "/" +:+ t) = n +:+ "/" +:+ t.
Proof.
  intros Ht Ht'. rewrite <- append_assoc.
  apply replace_absent, includes_false.
  apply (no_double_app "/"); [now apply includes_false | exact Ht | exact Ht'].
Qed.

Lemma key_index : replace "//" "/" (n +:+ "/index") = n +:+ "/index".
Proof. now apply (key_tail "index"). Qed.

Lemma key_slash_slash :
  replace "//" "/" ((n +:+ "/") +:+ "/") = n +:+ "/".
Proof.
  rewrite append_assoc.
  change ("/" +:+ "/") with ("//" +:+ EmptyString).
  rewrite collapse_after by now apply includes_false.
  reflexivity.
Qed.

Lemma key_slash_index :
  replace "//" "/" ((n +:+ "/") +:+ "/index") = n +:+ "/index".
Proof.
  rewrite append_assoc.
  change ("/" +:+ "/index") with ("//" +:+ "index").
  rewrite collapse_after by now apply includes_false.
  reflexivity.
Qed.

Lemma key_index_slash :
  replace "//" "/" ((n +:+ "/index") +:+ "/") = n +:+ "/index/".
Proof. rewrite append_assoc. now apply (key_tail "index/"). Qed.

Lemma key_index_index :
  replace "//" "/" ((n +:+ "/index") +:+ "/index") = n +:+ "/index/index".
Proof. rewrite append_assoc. now apply (key_tail "index/index"). Qed.

Hypothesis Hindex : includes "index" n = false.

Lemma key_without_index :
  replace "//" "/" (replace "index" EmptyString (n +:+ "/index"))
  = n +:+ "/".
Proof.
  change (n +:+ "/index") with (n +:+ String slash "index").
  unfold replace at 2.
  rewrite (replace_from_past slash "index");
    [| reflexivity | discriminate | now apply includes_false].
  change (replace_from "index" EmptyString (EmptyString +:+ n)
            (String slash "index")) with "/".
  apply key_slash.
Qed.

Lemma key_slash_without_index :
  replace "//" "/" (replace "index" EmptyString (n +:+ "/")) = n +:+ "/".
Proof.
  change (n +:+ "/") with (n +:+ String slash EmptyString).
  unfold replace at 2.
  rewrite (replace_from_past slash "index");
    [| reflexivity | discriminate | now apply includes_false].
  change (replace_from "index" EmptyString (EmptyString +:+ n)
            (String slash EmptyString)) with "/".
  apply key_slash.
Qed.

End Keys.

Variable this : Base.t Value.

Lemma member_own {A} (obj : gmap string A) (key : string) (a : A) :
  obj !! key = Some a -> Obj.member obj key = Some (Obj.Own a).
Proof. unfold Obj.member. now intros ->. Qed.

Lemma member_none {A} (obj : gmap string A) (key : string) :
  Obj.member obj key = None -> obj !! key = None.
Proof. unfold Obj.member. now destruct (obj !! key). Qed.

Lemma or_else_hit (a b : option (Obj.Member (Page Value))) :
  Base.truthyMember a = true -> Base.or_else a b = a.
Proof. unfold Base.or_else. now intros ->. Qed.

Lemma or_else_miss (a b : option (Obj.Member (Page Value))) :
  Base.truthyMember a = false -> Base.or_else a b = b.
Proof. unfold Base.or_else. now intros ->. Qed.

Lemma pageOption_candidates (newId : string) :
  Base.pageOption this newId =
  match map (Obj.member (Base._pages this)) (Base.candidates newId) with
  | [a; b; c; d] => Base.or_else a (Base.or_else b (Base.or_else c d))
  | _ => None
  end.
Proof. reflexivity. Qed.

Lemma pageOption_exact (newId : string) (d : Page Value) :
  Base._pages this !! newId = Some d ->
  Base.truthy (Some d) = true ->
  Base.pageOption this newId = Some (Obj.Own d).
Proof.
  intros Hd Ht. unfold Base.pageOption.
  rewrite (member_own _ _ _ Hd). now apply or_else_hit.
Qed.

Lemma load_resolved (id : string) (d : Page Value) :
  Base._filter id = true ->
  Base.pageOption this (Base.getHtmlName host id (Base._config_root this))
    = Some (Obj.Own d) ->
  Base._load host this id = Base.loadPage host this d.
Proof. intros Hf Hp. unfold Base._load. now rewrite Hf, Hp. Qed.

End ResolveFacts.
End ResolveFacts.

Module ResolveClaims.
Section ResolveClaims.

Import JS JSFacts ResolveFacts.
#[local] Arguments String.append !_ _ /.

Context {Value : Type}.
Variable host : Host Value.
Variable this : Base.t Value.

(** C10, as amended.  When the page table holds a definition other than
    the empty string under the exact normalized name, [_load] loads that
    definition, whatever is stored under the three derived keys. *)
Theorem load_exact_name_first (id : string) (d : Page Value) :
  Base._filter id = true ->
  Base._pages this !! Base.getHtmlName host id (Base._config_root this)
    = Some d ->
  Base.truthy (Some d) = true ->
  Base.pageOption this (Base.getHtmlName host id (Base._config_root this))
    = Some (Obj.Own d)
  /\ Base._load host this id = Base.loadPage host this d.
Proof.
  intros Hf Hd Ht.
  assert (Hp := pageOption_exact this _ _ Hd Ht).
  split; [exact Hp | now apply load_resolved].
Qed.

(** C4, as amended.  [getHtmlName] applied a second time changes nothing
    once the name it produced has no leading slash and holds no [.html],
    no working directory and no root prefix anywhere. *)
Theorem getHtmlName_idempotent_when_clean (p : string) (root : option string) :
  startsWith "/" (Base.getHtmlName host p root) = false ->
  includes ".html" (Base.getHtmlName host p root) = false ->
  includes (Base.cwd host) (Base.getHtmlName host p root) = false ->
  (Base.rootPrefix host root = EmptyString
   \/ includes (Base.rootPrefix host root) (Base.getHtmlName host p root)
      = false) ->
  Base.getHtmlName host (Base.getHtmlName host p root) root
  = Base.getHtmlName host p root.
Proof.
  set (y := Base.getHtmlName host p root).
  intros Hslash Hhtml Hcwd Hroot. unfold Base.getHtmlName at 1.
  rewrite (replace_absent _ _ y Hcwd), (replace_absent _ _ y Hhtml).
  rewrite replace_rootPrefix_inert by assumption.
  now rewrite Hslash.
Qed.

(** C1, as amended.  For a name [n] without NUL and [.html]:

    - the request [/n.html] resolves to the definition stored under [n];
    - the request [/n/index] does not pass the filter and gets null.

    When moreover [n] followed by a slash holds no doubled slash:

    - if nothing truthy is found under [n] and [n/], the requests
      [/n.html], [/n/] and [/n/index.html] all resolve to the definition
      stored under [n/index].

    When moreover [n] does not hold [index]:

    - the keys looked up for [/n/] are [n/], [n/], [n/index], [n/] and
      those for [/n/index.html] are [n/index], [n/index/],
      [n/index/index], [n/]: the key [n] is not among them;
    - the definition stored under [n/] answers [/n/]; it answers
      [/n.html] if nothing truthy is found under [n], and
      [/n/index.html] if nothing truthy is found under [n/index],
      [n/index/] and [n/index/index];
    - [/n/] gets null when nothing is found under [n/] and [n/index],
      whatever is stored under [n]. *)
Theorem load_name_forms (n : string) (d : Page Value) :
  lacks nul n = true ->
  includes ".html" n = false ->
  Base.rootPrefix host (Base._config_root this) = EmptyString ->
  (forall id,
      id ∈ ["/" +:+ n +:+ ".html"; "/" +:+ n +:+ "/";
            "/" +:+ n +:+ "/index.html"] ->
      includes (Base.cwd host) id = false) ->
  Base.truthy (Some d) = true ->
  let name id := Base.getHtmlName host id (Base._config_root this) in
  let found key := Base.truthyMember (Obj.member (Base._pages this) key) in
  (Base._pages this !! n = Some d ->
   Base._load host this ("/" +:+ n +:+ ".html") = Base.loadPage host this d)
  /\ Base._load host this ("/" +:+ n +:+ "/index") = mret None
  /\ (includes "//" (n +:+ "/") = false ->
      (Base._pages this !! (n +:+ "/index") = Some d ->
       found n = false ->
       found (n +:+ "/") = false ->
       Base._load host this ("/" +:+ n +:+ ".html")
       = Base.loadPage host this d
       /\ Base._load host this ("/" +:+ n +:+ "/")
          = Base.loadPage host this d
       /\ Base._load host this ("/" +:+ n +:+ "/index.html")
          = Base.loadPage host this d)
      /\ (includes "index" n = false ->
          Base.candidates (name ("/" +:+ n +:+ "/"))
          = [n +:+ "/"; n +:+ "/"; n +:+ "/index"; n +:+ "/"]
          /\ Base.candidates (name ("/" +:+ n +:+ "/index.html"))
             = [n +:+ "/index"; n +:+ "/index/"; n +:+ "/index/index";
                n +:+ "/"]
          /\ (Base._pages this !! (n +:+ "/") = Some d ->
              Base._load host this ("/" +:+ n +:+ "/")
              = Base.loadPage host this d
              /\ (found n = false ->
                  Base._load host this ("/" +:+ n +:+ ".html")
                  = Base.loadPage host this d)
              /\ (found (n +:+ "/index") = false ->
                  found (n +:+ "/index/") = false ->
                  found (n +:+ "/index/index") = false ->
                  Base._load host this ("/" +:+ n +:+ "/index.html")
                  = Base.loadPage host this d))
          /\ (Obj.member (Base._pages this) (n +:+ "/") = None ->
              Obj.member (Base._pages this) (n +:+ "/index") = None ->
              Base._load host this ("/" +:+ n +:+ "/") = mret None))).
Proof.
  intros Hnul Hhtml Hroot Hcwd Ht name found.
  assert (Hcwd1 := Hcwd ("/" +:+ n +:+ ".html") ltac:(set_solver)).
  assert (Hcwd2 := Hcwd ("/" +:+ n +:+ "/") ltac:(set_solver)).
  assert (Hcwd3 := Hcwd ("/" +:+ n +:+ "/index.html") ltac:(set_solver)).
  assert (E : "/" +:+ n +:+ "/index.html"
              = "/" +:+ (n +:+ "/index") +:+ ".html")
    by now rewrite append_assoc.
  assert (N1 : name ("/" +:+ n +:+ ".html") = n)
    by now apply getHtmlName_suffixed.
  assert (N2 : name ("/" +:+ n +:+ "/") = n +:+ "/").
  { apply (getHtmlName_unsuffixed host (n +:+ "/")); auto.
    now apply (html_past_slash n EmptyString). }
  assert (N3 : name ("/" +:+ n +:+ "/index.html") = n +:+ "/index").
  { subst name. cbv beta. rewrite E. apply getHtmlName_suffixed; auto.
    - now apply (html_past_slash n "index").
    - now rewrite <- E. }
  assert (F1 : Base._filter ("/" +:+ n +:+ ".html") = true)
    by now apply filter_html.
  assert (F2 : Base._filter ("/" +:+ n +:+ "/") = true)
    by now apply filter_directory.
  assert (F3 : Base._filter ("/" +:+ n +:+ "/index.html") = true).
  { rewrite E. apply filter_html. now rewrite lacks_app, Hnul. }
  subst name found. cbv beta in *.
  split; [| split; [| intros Hslash; split; [| intros Hindex]]].
  - intros Hpage. apply load_resolved; [exact F1 |].
    rewrite N1. now apply pageOption_exact.
  - unfold Base._load. now rewrite filter_index.
  - intros Hpage Hn0 Hn1. repeat split.
    + apply load_resolved; [exact F1 |]. rewrite N1.
      unfold Base.pageOption.
      rewrite key_slash, key_index by exact Hslash.
      rewrite (or_else_miss _ _ Hn0), (or_else_miss _ _ Hn1).
      rewrite (member_own _ _ _ Hpage). now apply or_else_hit.
    + apply load_resolved; [exact F2 |]. rewrite N2.
      unfold Base.pageOption.
      rewrite key_slash_slash, key_slash_index by exact Hslash.
      rewrite !(or_else_miss _ _ Hn1).
      rewrite (member_own _ _ _ Hpage). now apply or_else_hit.
    + apply load_resolved; [exact F3 |]. rewrite N3.
      now apply pageOption_exact.
  - rewrite N2, N3. unfold Base.candidates.
    rewrite key_slash_slash, key_slash_index, key_index_slash,
      key_index_index, key_without_index, key_slash_without_index
      by assumption.
    split; [reflexivity |]. split; [reflexivity |]. split.
    + intros Hpage. repeat split.
      * apply load_resolved; [exact F2 |]. rewrite N2.
        now apply pageOption_exact.
      * intros Hn0. apply load_resolved; [exact F1 |]. rewrite N1.
        unfold Base.pageOption. rewrite key_slash by exact Hslash.
        rewrite (or_else_miss _ _ Hn0), (member_own _ _ _ Hpage).
        now apply or_else_hit.
      * intros H0 H1 H2. apply load_resolved; [exact F3 |]. rewrite N3.
        unfold Base.pageOption.
        rewrite key_index_slash, key_index_index, key_without_index
          by assumption.
        rewrite (or_else_miss _ _ H0), (or_else_miss _ _ H1),
          (or_else_miss _ _ H2).
        now apply member_own.
    + intros H0 H1. unfold Base._load. rewrite F2, N2.
      unfold Base.pageOption.
      rewrite key_slash_slash, key_slash_index, key_slash_without_index
        by assumption.
      rewrite H0, H1. reflexivity.
Qed.

End ResolveClaims.
End ResolveClaims.

Module ResolveExamples.

Import JS JSFacts ResolveFacts ResolveClaims.

Lemma load_exact_name_first_witness :
  Base.pageOption (Demo.plugin Demo.doubled ∅)
    (Base.getHtmlName Demo.host "/about.html" None)
  = Some (Obj.Own (PagePath "/about.html"))
  /\ Base._load Demo.host (Demo.plugin Demo.doubled ∅) "/about.html"
     = Base.loadPage Demo.host (Demo.plugin Demo.doubled ∅)
         (PagePath "/about.html").
Proof.
  apply (load_exact_name_first Demo.host (Demo.plugin Demo.doubled ∅)
           "/about.html" (PagePath "/about.html"));
    vm_compute; reflexivity.
Defined.

(** C10 fails on an empty template path: [||] passes it over, and the
    page of the derived key [a/] is loaded. *)
Lemma empty_exact_entry_is_skipped :
  Base._filter "/a.html" = true
  /\ Base._pages (Demo.plugin Demo.shadowed ∅)
       !! Base.getHtmlName Demo.host "/a.html" None
     = Some (PagePath EmptyString)
  /\ Base.pageOption (Demo.plugin Demo.shadowed ∅)
       (Base.getHtmlName Demo.host "/a.html" None)
     = Some (Obj.Own (PageVirtual Demo.main))
  /\ Base._load Demo.host (Demo.plugin Demo.shadowed ∅) "/a.html" []
     = (Returned (Some (Base.generateVirtualPage Demo.main)), [])
  /\ Base._load Demo.host (Demo.plugin Demo.shadowed ∅) "/a.html" []
     <> Base.loadPage Demo.host (Demo.plugin Demo.shadowed ∅)
          (PagePath EmptyString) [].
Proof. vm_compute. repeat split; discriminate. Qed.

Lemma getHtmlName_idempotent_when_clean_witness :
  Base.getHtmlName Demo.host
    (Base.getHtmlName Demo.host "/home/dev/site/about.html" None) None
  = Base.getHtmlName Demo.host "/home/dev/site/about.html" None.
Proof.
  apply (getHtmlName_idempotent_when_clean Demo.host
           "/home/dev/site/about.html" None);
    [reflexivity | reflexivity | reflexivity | left; reflexivity].
Defined.

(** C4 fails when [.html] occurs twice: the name [a.htmlb] has no
    leading slash and no [.html] suffix, and is normalized to [ab]. *)
Lemma getHtmlName_twice_differs :
  Base.getHtmlName Demo.host "/a.html.htmlb" None = "a.htmlb"
  /\ startsWith "/" (Base.getHtmlName Demo.host "/a.html.htmlb" None) = false
  /\ endsWith ".html" (Base.getHtmlName Demo.host "/a.html.htmlb" None)
     = false
  /\ Base.getHtmlName Demo.host
       (Base.getHtmlName Demo.host "/a.html.htmlb" None) None = "ab"
  /\ Base.getHtmlName Demo.host
       (Base.getHtmlName Demo.host "/a.html.htmlb" None) None
     <> Base.getHtmlName Demo.host "/a.html.htmlb" None.
Proof. vm_compute. repeat split; discriminate. Qed.

Lemma load_name_forms_witness :
  Base._load Demo.host (Demo.plugin Demo.about ∅)
    ("/" +:+ "about" +:+ ".html")
  = Base.loadPage Demo.host (Demo.plugin Demo.about ∅)
      (PagePath "/about.html")
  /\ Base._load Demo.host (Demo.plugin Demo.about ∅)
       ("/" +:+ "about" +:+ "/index") = mret None
  /\ Base._load Demo.host (Demo.plugin Demo.about ∅)
       ("/" +:+ "about" +:+ "/") = mret None
  /\ (Base._load Demo.host (Demo.plugin Demo.indexed ∅)
        ("/" +:+ "about" +:+ ".html")
      = Base.loadPage Demo.host (Demo.plugin Demo.indexed ∅)
          (PagePath "/about/index.html")
      /\ Base._load Demo.host (Demo.plugin Demo.indexed ∅)
           ("/" +:+ "about" +:+ "/")
         = Base.loadPage Demo.host (Demo.plugin Demo.indexed ∅)
             (PagePath "/about/index.html")
      /\ Base._load Demo.host (Demo.plugin Demo.indexed ∅)
           ("/" +:+ "about" +:+ "/index.html")
         = Base.loadPage Demo.host (Demo.plugin Demo.indexed ∅)
             (PagePath "/about/index.html"))
  /\ (Base._load Site.host (Site.plugin Site.host Site.docs)
        ("/" +:+ "docs" +:+ "/")
      = Base.loadPage Site.host (Site.plugin Site.host Site.docs)
          (PageVirtual Demo.main)
      /\ Base._load Site.host (Site.plugin Site.host Site.docs)
           ("/" +:+ "docs" +:+ ".html")
         = Base.loadPage Site.host (Site.plugin Site.host Site.docs)
             (PageVirtual Demo.main)
      /\ Base._load Site.host (Site.plugin Site.host Site.docs)
           ("/" +:+ "docs" +:+ "/index.html")
         = Base.loadPage Site.host (Site.plugin Site.host Site.docs)
             (PageVirtual Demo.main)).
Proof.
  assert (Hcwd : forall h n,
             (h = Demo.host /\ n = "about") \/ (h = Site.host /\ n = "docs") ->
             forall id,
               id ∈ ["/" +:+ n +:+ ".html"; "/" +:+ n +:+ "/";
                     "/" +:+ n +:+ "/index.html"] ->
               includes (Base.cwd h) id = false).
  { intros h n Hn id Hin. apply list_elem_of_In in Hin. simpl in Hin.
    destruct Hn as [[-> ->] | [-> ->]];
      destruct Hin as [<- | [<- | [<- | []]]]; vm_compute; reflexivity. }
  assert (Ht1 : Base.truthy (Some (PagePath (Value:=string) "/about.html"))
                = true) by (vm_compute; reflexivity).
  assert (Ht2 : Base.truthy
                  (Some (PagePath (Value:=string) "/about/index.html"))
                = true) by (vm_compute; reflexivity).
  assert (Ht3 : Base.truthy (Some (PageVirtual (Value:=string) Demo.main))
                = true) by (vm_compute; reflexivity).
  pose proof (load_name_forms Demo.host (Demo.plugin Demo.about ∅)
                "about" (PagePath "/about.html") eq_refl eq_refl eq_refl
                (Hcwd _ _ (or_introl (conj eq_refl eq_refl))) Ht1) as W1.
  pose proof (load_name_forms Demo.host (Demo.plugin Demo.indexed ∅)
                "about" (PagePath "/about/index.html") eq_refl eq_refl
                eq_refl (Hcwd _ _ (or_introl (conj eq_refl eq_refl))) Ht2)
    as W2.
  pose proof (load_name_forms Site.host (Site.plugin Site.host Site.docs)
                "docs" (PageVirtual Demo.main) eq_refl eq_refl eq_refl
                (Hcwd _ _ (or_intror (conj eq_refl eq_refl))) Ht3) as W3.
  cbv zeta in W1, W2, W3.
  destruct W1 as (A & E & C). destruct (C eq_refl) as (_ & D).
  destruct (D eq_refl) as (_ & _ & _ & N).
  destruct W2 as (_ & _ & B). destruct (B eq_refl) as (B' & _).
  destruct W3 as (_ & _ & K). destruct (K eq_refl) as (_ & K').
  destruct (K' eq_refl) as (_ & _ & K'' & _).
  split; [apply A; vm_compute; reflexivity |].
  split; [exact E |].
  split; [apply N; vm_compute; reflexivity |].
  split; [apply B'; vm_compute; reflexivity |].
  destruct K'' as (K1 & K2 & K3); [vm_compute; reflexivity |].
  split; [exact K1 |].
  split; [apply K2 | apply K3]; vm_compute; reflexivity.
Defined.

(** C1 fails on the table of the specification: [/about/] and
    [/about/index] do not reach the page stored under [about]. *)
Lemma trailing_slash_misses_bare_name :
  Base._pages (Demo.plugin Demo.about ∅) !! "about"
  = Some (PagePath "/about.html")
  /\ Base.pageOption (Demo.plugin Demo.about ∅)
       (Base.getHtmlName Demo.host "/about.html" None)
     = Some (Obj.Own (PagePath "/about.html"))
  /\ Base.candidates (Base.getHtmlName Demo.host "/about/" None)
     = ["about/"; "about/"; "about/index"; "about/"]
  /\ Base.pageOption (Demo.plugin Demo.about ∅)
       (Base.getHtmlName Demo.host "/about/" None) = None
  /\ Base._load Demo.host (Demo.plugin Demo.about ∅) "/about/" []
     = (Returned None, [])
  /\ Base._filter "/about/index" = false
  /\ Base._load Demo.host (Demo.plugin Demo.about ∅) "/about/index" []
     = (Returned None, []).
Proof. vm_compute. repeat split. Qed.

End ResolveExamples.

(** ** Injection, the virtual page, the missing template, the glob *)

Module PageFacts.
Section PageFacts.

Import JS JSFacts.
#[local] Arguments String.append !_ _ /.

Context {Value : Type}.
Variable host : Host Value.

(** With a rule under the file name, [_transform] returns that rule
    applied to the code it was given: the wildcard rule leaves no
    trace. *)
Lemma _transform_file_rule (this : Base.t Value) (code id : string)
    (rule : InjectCode) :
  Base._filter id = true ->
  Base._injectCode this !! last_segment slash id = Some rule ->
  Base._transform this code id = Some (Base.generateInjectCode rule code).
Proof.
  intros Hf Hk. unfold Base._transform, Obj.member. now rewrite Hf, Hk.
Qed.

(** With at most one of the two rules, the code and the chaining of the
    specification agree. *)
Lemma _transform_single_rule (this : Base.t Value) (code id : string) :
  Base._injectCode this !! Base.DEFAULT_INJECTCODE_ALL = None
  \/ Obj.member (Base._injectCode this) (last_segment slash id) = None ->
  Base._transform this code id = Base._transform_chained this code id.
Proof.
  unfold Base._transform, Base._transform_chained.
  destruct (Base._filter id); [| reflexivity].
  assert (Hall : Obj.inherited Base.DEFAULT_INJECTCODE_ALL = false)
    by reflexivity.
  intros [H | H].
  - unfold Obj.member. rewrite H, Hall.
    destruct (Base._injectCode this !! last_segment slash id);
      [reflexivity |].
    now destruct (Obj.inherited (last_segment slash id)).
  - rewrite H, (ResolveFacts.member_none _ _ H).
    unfold Obj.member.
    now destruct (Base._injectCode this !! Base.DEFAULT_INJECTCODE_ALL).
Qed.

Lemma generateInjectCode_unrecognized (raw find replacement code : string) :
  Base.generateInjectCode
    {| pos := unrecognized raw; find := find; replacement := replacement |}
    code = code.
Proof. reflexivity. Qed.

Lemma readHtml_absent (page : PageObject Value) (tr : list Event) :
  existsSync host
    (path_resolve host (Base.cwd host) ("." +:+ template page)) = false ->
  Base.readHtml host page tr
  = (Returned EmptyString, tr ++ [Logged Base.missingTemplate]).
Proof. intros H. unfold Base.readHtml. now rewrite H. Qed.

Lemma set_add_elem (x y : string) (set : list string) :
  x ∈ Base.set_add y set <-> x ∈ set \/ x = y.
Proof.
  unfold Base.set_add. case_bool_decide as Hy.
  - split; [auto | intros [H | ->]; assumption].
  - rewrite elem_of_app, list_elem_of_singleton. reflexivity.
Qed.

Lemma set_add_NoDup (y : string) (set : list string) :
  NoDup set -> NoDup (Base.set_add y set).
Proof.
  intros H. unfold Base.set_add. case_bool_decide as Hy; [assumption |].
  apply NoDup_app. repeat split; [assumption | | apply NoDup_singleton].
  intros x Hx Hx'. apply list_elem_of_singleton in Hx'. now subst.
Qed.

Lemma set_add_all_elem (x : string) (l set : list string) :
  x ∈ foldl (fun set dg => Base.set_add dg set) set l <-> x ∈ set \/ x ∈ l.
Proof.
  revert set. induction l as [|y l IH]; intros set; simpl.
  - rewrite elem_of_nil. tauto.
  - rewrite IH, set_add_elem, elem_of_cons. tauto.
Qed.

Lemma set_add_all_NoDup (l set : list string) :
  NoDup set -> NoDup (foldl (fun set dg => Base.set_add dg set) set l).
Proof.
  revert set. induction l as [|y l IH]; intros set H; simpl;
    [assumption | now apply IH, set_add_NoDup].
Qed.

End PageFacts.
End PageFacts.

Module PageClaims.
Section PageClaims.

Import JS JSFacts PageFacts.
#[local] Arguments String.append !_ _ /.

Context {Value : Type}.
Variable host : Host Value.

(** C2.  On [/a.html], with the wildcard rule (insert X after A) and a
    rule for [a.html] (insert Y after A), [_transform] returns the code
    with Y only, where the chaining of the two rules yields Y and X:
    the second rule is given the original code, not the output of the
    first.  The earlier revision loses the file rule in the same way. *)
Theorem _transform_discards_first_rule :
  Base._filter "/a.html" = true
  /\ Base._transform (Demo.plugin ∅ Demo.rules) "A" "/a.html"
     = Some ("A" +:+ NL +:+ "Y")
  /\ Base._transform_chained (Demo.plugin ∅ Demo.rules) "A" "/a.html"
     = Some ("A" +:+ NL +:+ "Y" +:+ NL +:+ "X")
  /\ Base._transform (Demo.plugin ∅ Demo.rules) "A" "/a.html"
     <> Base._transform_chained (Demo.plugin ∅ Demo.rules) "A" "/a.html"
  /\ Legacy._transform (Demo.plugin ∅ Demo.rules) "A" "/a.html"
     = Some ("A" +:+ NL +:+ "X").
Proof. vm_compute. repeat split; discriminate. Qed.

(** C3, as amended.  On the code A, line feed, B with [find] A and
    [replacement] X: position after gives A, X, B on three lines;
    position before gives a line feed, then X, A, B on three lines; any
    other position gives the code back.  In both insertions only the
    first A is touched: whatever follows it is left as it is. *)
Theorem generateInjectCode_positions :
  Base.generateInjectCode Demo.X_after_A ("A" +:+ NL +:+ "B")
  = "A" +:+ NL +:+ "X" +:+ NL +:+ "B"
  /\ Base.generateInjectCode Demo.X_before_A ("A" +:+ NL +:+ "B")
     = NL +:+ "X" +:+ NL +:+ "A" +:+ NL +:+ "B"
  /\ (forall raw code,
         Base.generateInjectCode
           {| pos := unrecognized raw; find := "A"; replacement := "X" |}
           code = code)
  /\ (forall pre post,
         lacks "A" pre = true ->
         Base.generateInjectCode Demo.X_after_A (pre +:+ "A" +:+ post)
         = pre +:+ ("A" +:+ NL +:+ "X") +:+ post
         /\ Base.generateInjectCode Demo.X_before_A (pre +:+ "A" +:+ post)
            = pre +:+ (NL +:+ "X" +:+ NL +:+ "A") +:+ post).
Proof.
  split; [reflexivity |]. split; [reflexivity |].
  split; [intros; apply generateInjectCode_unrecognized |].
  intros pre post Hpre. unfold Base.generateInjectCode, replace. simpl.
  split; now rewrite (replace_from_lacks "A") by exact Hpre.
Qed.

(** C5.  The virtual page of the entry [/src/main.ts] with title App
    and the default body is the boilerplate document with the three
    placeholders replaced, each of which occurs once in the boilerplate;
    it holds one title element, one script element and one [div]. *)
Theorem generateVirtualPage_main :
  let div := "<div id=" +:+ DQ +:+ "app" +:+ DQ +:+ "></div>" in
  let script :=
    "<script src=" +:+ DQ +:+ "/src/main.ts" +:+ DQ +:+ " type=" +:+ DQ
      +:+ "module" +:+ DQ +:+ ">" in
  let a :=
    NL +:+ "<!DOCTYPE html>" +:+ NL +:+ "<html lang=" +:+ DQ +:+ "en"
      +:+ DQ +:+ ">" +:+ NL +:+ "<head>" +:+ NL +:+ "    <meta charset="
      +:+ DQ +:+ "UTF-8" +:+ DQ +:+ ">" +:+ NL +:+ "    <title>" in
  let b := "</title>" +:+ NL +:+ "    <script src=" +:+ DQ in
  let c :=
    DQ +:+ " type=" +:+ DQ +:+ "module" +:+ DQ +:+ "></script>" +:+ NL
      +:+ "</head>" +:+ NL +:+ "<body>" +:+ NL in
  let d := NL +:+ "</body>" +:+ NL +:+ "</html>" +:+ NL in
  Base.VIRTUAL_HTML_CONTENT
  = a +:+ "#TITLE#" +:+ b +:+ "#ENTRY#" +:+ c +:+ "#BODY#" +:+ d
  /\ Base.generateVirtualPage Demo.main
     = a +:+ "App" +:+ b +:+ "/src/main.ts" +:+ c +:+ div +:+ d
  /\ occurrences "#TITLE#" Base.VIRTUAL_HTML_CONTENT = 1
  /\ occurrences "#ENTRY#" Base.VIRTUAL_HTML_CONTENT = 1
  /\ occurrences "#BODY#" Base.VIRTUAL_HTML_CONTENT = 1
  /\ occurrences "<title>App</title>" (Base.generateVirtualPage Demo.main)
     = 1
  /\ occurrences script (Base.generateVirtualPage Demo.main) = 1
  /\ occurrences div (Base.generateVirtualPage Demo.main) = 1.
Proof. vm_compute. repeat split. Qed.

(** C6.  When the template file of a page is not on disk, [readHtml]
    returns the empty string and logs one warning; so does [_load] on a
    page given by its path or by an object with a template. *)
Theorem readHtml_missing_template (this : Base.t Value)
    (page : PageObject Value) (tr : list Event) :
  existsSync host
    (path_resolve host (Base.cwd host) ("." +:+ template page)) = false ->
  Base.readHtml host page tr
  = (Returned EmptyString, tr ++ [Logged Base.missingTemplate])
  /\ Base.loadPage host this (PageTemplate page) tr
     = (Returned (Some EmptyString), tr ++ [Logged Base.missingTemplate])
  /\ Base.loadPage host this (PagePath (template page)) tr
     = (Returned (Some EmptyString), tr ++ [Logged Base.missingTemplate]).
Proof.
  intros H. split; [now apply readHtml_absent |].
  split; unfold Base.loadPage, mbind, M_bind, bind;
    now rewrite readHtml_absent.
Qed.

(** C9.  With no extra pattern the glob gets the default patterns.  With
    extra patterns it gets a list without repetition that holds the
    default patterns and the extra ones and nothing else; the table is
    built from the files the glob returns for it. *)
Theorem realPattern_union (extraGlobPattern : list string) :
  Base.realPattern [] = Base.DEFAULT_GLOB_PATTERN
  /\ Base.findAllHtmlInProject host extraGlobPattern
     = Base.collect (glob_sync host (Base.realPattern extraGlobPattern))
  /\ (extraGlobPattern <> [] ->
      NoDup (Base.realPattern extraGlobPattern)
      /\ forall p,
           p ∈ Base.realPattern extraGlobPattern
           <-> p ∈ Base.DEFAULT_GLOB_PATTERN \/ p ∈ extraGlobPattern).
Proof.
  split; [reflexivity |]. split; [reflexivity |].
  intros Hne. unfold Base.realPattern.
  destruct extraGlobPattern as [|x extra]; [contradiction |].
  change (length (x :: extra) =? 0) with false. cbv iota.
  change (foldl (fun set dg => Base.set_add dg set) []
            Base.DEFAULT_GLOB_PATTERN)
    with Base.DEFAULT_GLOB_PATTERN.
  split.
  - apply set_add_all_NoDup. unfold Base.DEFAULT_GLOB_PATTERN.
    apply (bool_decide_unpack _). by vm_compute.
  - intros p. apply set_add_all_elem.
Qed.

End PageClaims.
End PageClaims.

(** ** The default renderer and the dev-server handler *)

Module ServeFacts.
Section ServeFacts.

Import JS JSFacts.

Context {Value : Type}.
Variable host : Host Value.

Lemma defaultRender_no_ejs (template : string)
    (data : VirtualHtmlTemplateData Value) (tr : list Event) :
  ejs_render host = None ->
  Base.defaultRender host template data tr = (Returned template, tr).
Proof. intros H. unfold Base.defaultRender. now rewrite H. Qed.

Lemma warnings_app (tr tr' : list Event) :
  Legacy.warnings (tr ++ tr') = Legacy.warnings tr + Legacy.warnings tr'.
Proof.
  induction tr as [|e tr IH]; simpl; [reflexivity |].
  destruct e; rewrite IH; lia.
Qed.

Lemma warnings_one : Legacy.warnings [Logged Legacy.ejsMissing] = 1.
Proof. reflexivity. Qed.

(** The earlier revision, called as a method: the flag lets the warning
    through once. *)
Lemma legacy_defaultRender_step (template : string)
    (data : VirtualHtmlTemplateData Value) (st : Legacy.State) :
  ejs_render host = None ->
  Legacy.warnings (Legacy.events st)
    <= (if Legacy.alreadyShowEjsError st then 1 else 0) ->
  exists st',
    Legacy.defaultRender host true template data st = (Returned template, st')
    /\ Legacy.alreadyShowEjsError st' = true
    /\ Legacy.warnings (Legacy.events st') <= 1.
Proof.
  intros H Hinv. unfold Legacy.defaultRender. rewrite H.
  destruct (Legacy.alreadyShowEjsError st) eqn:Hflag.
  - exists st. auto.
  - eexists. split; [reflexivity |]. split; [reflexivity |].
    cbn [Legacy.events]. rewrite warnings_app, warnings_one. lia.
Qed.

Lemma legacy_renderAll_warns_once
    (calls : list (string * VirtualHtmlTemplateData Value))
    (st : Legacy.State) :
  ejs_render host = None ->
  Legacy.warnings (Legacy.events st)
    <= (if Legacy.alreadyShowEjsError st then 1 else 0) ->
  (Legacy.renderAll host true calls st).1 = map (fun c => Returned c.1) calls
  /\ Legacy.warnings (Legacy.events (Legacy.renderAll host true calls st).2)
     <= 1.
Proof.
  intros H. revert st. induction calls as [|[template data] calls IH];
    intros st Hinv; simpl.
  - split; [reflexivity |]. destruct (Legacy.alreadyShowEjsError st); lia.
  - destruct (legacy_defaultRender_step template data st H Hinv)
      as (st' & -> & Hflag & Hw).
    destruct (IH st') as [IH1 IH2]; [now rewrite Hflag |].
    destruct (Legacy.renderAll host true calls st') as [os st''].
    simpl in *. now rewrite IH1.
Qed.

(** The earlier revision, called as a function value (as
    [renderTemplate] calls it): reading the flag of an undefined [this]
    throws. *)
Lemma legacy_defaultRender_detached (template : string)
    (data : VirtualHtmlTemplateData Value) (st : Legacy.State) :
  ejs_render host = None ->
  Legacy.defaultRender host false template data st = (Thrown TypeError, st).
Proof. intros H. unfold Legacy.defaultRender. now rewrite H. Qed.

End ServeFacts.
End ServeFacts.

Module ServeClaims.
Section ServeClaims.

Import JS JSFacts ServeFacts.

Context {Value : Type}.
Variable host : Host Value.

(** C8.  Without [ejs], [defaultRender] returns the template as it is
    and throws nothing; over any run of calls the log is left as it was,
    so the warning about the missing module is not logged twice. *)
Theorem defaultRender_without_ejs :
  ejs_render host = None ->
  (forall template data tr,
      Base.defaultRender host template data tr = (Returned template, tr))
  /\ (forall calls tr,
         Base.renderAll (Base.defaultRender host) calls tr
         = (Returned (map fst calls), tr)
         /\ Legacy.warnings
              (Base.renderAll (Base.defaultRender host) calls tr).2
            = Legacy.warnings tr).
Proof.
  intros H. split; [intros; now apply defaultRender_no_ejs |].
  assert (E : forall calls tr,
             Base.renderAll (Base.defaultRender host) calls tr
             = (Returned (map fst calls), tr)).
  { induction calls as [|[template data] calls IH]; intros tr;
      [reflexivity |].
    simpl. unfold mbind, M_bind, bind.
    rewrite defaultRender_no_ejs by exact H. now rewrite IH. }
  intros calls tr. now rewrite E.
Qed.

Variable this : Serve.t (Value := Value).

(** C7.  A request whose url is not [/] and ends neither in [/] nor in
    [.html] only reaches [next]: nothing is loaded.  For the urls [/]
    and [/index.html], [_load] is called on the normalized path of
    [/], the index page and [.html], and the page is delivered under
    that url. *)
Theorem middleware_gate (req : Request) (url : string)
    (tr tr' : list Event) :
  Serve.effectiveUrl host this req tr = (Returned url, tr') ->
  (url <> "/" -> endsWith "/" url = false -> endsWith ".html" url = false ->
   Serve.middleware host this req tr = (Returned tt, tr' ++ [NextCalled]))
  /\ (url = "/" \/ url = "/index.html" ->
      let index :=
        "/" +:+ Base._indexPage (Serve.base this) +:+ ".html" in
      Serve.middleware host this req tr
      = (loaded ← Base._load host (Serve.base this)
                    (normalizePath host index);
         Serve.deliver host this index loaded)
          (tr' ++ [LoadCalled (normalizePath host index)])).
Proof.
  intros Hu. split.
  - intros Hroot Hdir Hhtml.
    unfold Serve.middleware, mbind, M_bind, bind. rewrite Hu.
    rewrite Hdir, Hhtml. apply String.eqb_neq in Hroot. rewrite Hroot.
    reflexivity.
  - intros Hidx index.
    unfold Serve.middleware, mbind, M_bind, bind. rewrite Hu.
    destruct Hidx as [-> | ->]; reflexivity.
Qed.

End ServeClaims.
End ServeClaims.

(** ** The claims on the concrete plugin *)

Module Runs.

Import JS PageClaims ServeClaims.

Lemma generateInjectCode_positions_witness :
  lacks "A" "B" = true
  /\ Base.generateInjectCode Demo.X_after_A ("B" +:+ "A" +:+ NL +:+ "A")
     = "B" +:+ ("A" +:+ NL +:+ "X") +:+ NL +:+ "A"
  /\ Base.generateInjectCode Demo.X_before_A ("B" +:+ "A" +:+ NL +:+ "A")
     = "B" +:+ (NL +:+ "X" +:+ NL +:+ "A") +:+ NL +:+ "A".
Proof.
  split; [reflexivity |].
  destruct generateInjectCode_positions as (_ & _ & _ & H).
  apply (H "B" (NL +:+ "A")). reflexivity.
Defined.

(** C3 fails for position before: the result starts with a line
    feed. *)
Lemma before_starts_with_line_feed :
  Base.generateInjectCode Demo.X_before_A ("A" +:+ NL +:+ "B")
  <> "X" +:+ NL +:+ "A" +:+ NL +:+ "B".
Proof. vm_compute. discriminate. Qed.

Lemma readHtml_missing_template_witness :
  Base.readHtml Demo.host Demo.aboutPage []
  = (Returned EmptyString, [] ++ [Logged Base.missingTemplate])
  /\ Base.loadPage Demo.host (Demo.plugin Demo.about ∅)
       (PageTemplate Demo.aboutPage) []
     = (Returned (Some EmptyString), [] ++ [Logged Base.missingTemplate])
  /\ Base.loadPage Demo.host (Demo.plugin Demo.about ∅)
       (PagePath (template Demo.aboutPage)) []
     = (Returned (Some EmptyString), [] ++ [Logged Base.missingTemplate]).
Proof.
  apply (readHtml_missing_template Demo.host (Demo.plugin Demo.about ∅)
           Demo.aboutPage []).
  reflexivity.
Defined.

Lemma realPattern_union_witness :
  ["pages/**/*.html"; "**/*.html"] <> []
  /\ NoDup (Base.realPattern ["pages/**/*.html"; "**/*.html"])
  /\ Base.realPattern ["pages/**/*.html"; "**/*.html"]
     = ["**/*.html"; "!node_modules/**/*.html"; "!.**/*.html";
        "pages/**/*.html"].
Proof.
  assert (Hne : ["pages/**/*.html"; "**/*.html"] <> @nil string)
    by discriminate.
  split; [exact Hne |].
  destruct (realPattern_union Demo.host ["pages/**/*.html"; "**/*.html"])
    as (_ & _ & H).
  split; [exact (proj1 (H Hne)) | vm_compute; reflexivity].
Defined.

Lemma defaultRender_without_ejs_witness :
  Base.defaultRender Demo.host "<p><%= title %></p>" ∅ []
  = (Returned "<p><%= title %></p>", []).
Proof.
  assert (H : ejs_render Demo.host = None) by reflexivity.
  apply (proj1 (defaultRender_without_ejs Demo.host H)).
Defined.

Lemma middleware_gate_witness :
  Serve.middleware Demo.host (Demo.server Demo.about) Demo.script []
  = (Returned tt, [NextCalled])
  /\ Serve.middleware Demo.host (Demo.server Demo.about) Demo.root []
     = (Returned tt, [LoadCalled "/index.html"; Ended EmptyString;
                      NextCalled]).
Proof.
  assert (H1 : Serve.effectiveUrl Demo.host (Demo.server Demo.about)
                 Demo.script [] = (Returned "/src/main.ts", []))
    by (vm_compute; reflexivity).
  assert (H2 : Serve.effectiveUrl Demo.host (Demo.server Demo.about)
                 Demo.root [] = (Returned "/", []))
    by (vm_compute; reflexivity).
  destruct (middleware_gate Demo.host (Demo.server Demo.about) Demo.script
              "/src/main.ts" [] [] H1) as [G1 _].
  destruct (middleware_gate Demo.host (Demo.server Demo.about) Demo.root
              "/" [] [] H2) as [_ G2].
  split.
  - apply G1; [discriminate | reflexivity | reflexivity].
  - rewrite G2 by (left; reflexivity). vm_compute. reflexivity.
Defined.

(** The earlier revision of [getHtmlName] cuts five characters
    whatever they are, and of [findAllHtmlInProject] drops the default
    patterns when there are extra ones. *)
Example legacy_revision :
  Legacy.getHtmlName Demo.host "/about.html" None = "about"
  /\ Legacy.getHtmlName Demo.host "about" None = EmptyString
  /\ Legacy.realPattern ["pages/**/*.html"] = ["pages/**/*.html"].
Proof. vm_compute. repeat split. Qed.

End Runs.

(** ** More facts about the string primitives *)

Module JSMore.

Import JS JSFacts.
#[local] Arguments String.append !_ _ /.

Lemma replace_prefix (p t : string) : replace p EmptyString (p +:+ t) = t.
Proof.
  unfold replace. rewrite replace_from_eq, startsWith_app, skip_app.
  reflexivity.
Qed.

Lemma skip_empty (n : nat) : skip n EmptyString = EmptyString.
Proof. now destruct n. Qed.

Lemma literal_app (a b : string) :
  literal (a +:+ b) = literal a && literal b.
Proof.
  induction a as [|x a IH]; simpl; [reflexivity |].
  now rewrite IH, andb_assoc.
Qed.

Lemma lacks_split (c : ascii) (s : string) :
  lacks c s = true -> split c s = [s].
Proof.
  induction s as [|a s IH]; simpl; [reflexivity |].
  intros [Ha Hs]%andb_prop. apply negb_true_iff in Ha.
  now rewrite Ha, IH.
Qed.

(** The segments of a text that holds the separator: there are at least
    two, and what follows the last separator is the last one. *)
Lemma split_last_segment (c : ascii) (file : string) :
  lacks c file = true ->
  forall pre,
    exists w ws,
      split c (pre +:+ String c file) = w :: ws
      /\ ws <> []
      /\ List.last ws EmptyString = file.
Proof.
  intros Hfile. induction pre as [|a pre (w & ws & E & Hne & Hlast)].
  - exists EmptyString, [file]. simpl. rewrite Ascii.eqb_refl.
    rewrite lacks_split by exact Hfile. repeat split. discriminate.
  - simpl. rewrite E. destruct (Ascii.eqb a c).
    + exists EmptyString, (w :: ws). repeat split; [discriminate |].
      destruct ws; [contradiction | exact Hlast].
    + exists (String a w), ws. auto.
Qed.

Lemma last_segment_file (c : ascii) (pre file : string) :
  lacks c file = true ->
  last_segment c (pre +:+ String c file) = file.
Proof.
  intros Hfile. unfold last_segment.
  destruct (split_last_segment c file Hfile pre) as (w & ws & -> & Hne & Hl).
  destruct ws; [contradiction | exact Hl].
Qed.

Lemma last_segment_lacks (c : ascii) (s : string) :
  lacks c s = true -> last_segment c s = s.
Proof. intros H. unfold last_segment. now rewrite lacks_split. Qed.

Lemma first_segment_path (c : ascii) (t : string) :
  forall pre,
    lacks c pre = true ->
    first_segment c (pre +:+ String c t) = pre.
Proof.
  unfold first_segment. induction pre as [|a pre IH]; intros H.
  - simpl. now rewrite Ascii.eqb_refl.
  - simpl in H. apply andb_prop in H as [Ha Hpre].
    apply negb_true_iff in Ha. simpl. rewrite Ha.
    specialize (IH Hpre).
    destruct (split c (pre +:+ String c t)) as [|w ws]; simpl in *;
      now subst.
Qed.

(** A text that holds [c] splits at the first [c]. *)
Lemma first_occurrence (c : ascii) (s : string) :
  lacks c s = false ->
  exists pre t, s = pre +:+ String c t /\ lacks c pre = true.
Proof.
  induction s as [|a s IH]; simpl; [discriminate |].
  destruct (Ascii.eqb a c) eqn:Ha; simpl.
  - intros _. apply Ascii.eqb_eq in Ha as ->.
    now exists EmptyString, s.
  - intros (pre & t & -> & Hpre)%IH.
    exists (String a pre), t. simpl. now rewrite Ha.
Qed.

Lemma endsWith_split (p s : string) :
  endsWith p s = true -> exists pre, s = pre +:+ p.
Proof.
  induction s as [|a s IH]; rewrite endsWith_eq.
  - intros [H | H]%orb_prop; [| discriminate].
    apply String.eqb_eq in H as ->. now exists EmptyString.
  - intros [H | H]%orb_prop.
    + apply String.eqb_eq in H as ->. now exists EmptyString.
    + destruct (IH H) as (pre & ->). now exists (String a pre).
Qed.

Lemma includes_suffix (p pre : string) : includes p (pre +:+ p) = true.
Proof.
  rewrite <- (append_empty_r p) at 2. apply includes_app.
Qed.

End JSMore.

(** ** Urls, names and injected code *)

Module TextFacts.
Section TextFacts.

Import JS JSFacts JSMore.
#[local] Arguments String.append !_ _ /.

Context {Value : Type}.
Variable host : Host Value.

(** The query string of a url is dropped; a url without one, or one that
    starts with the question mark, is kept whole; no url, or the empty
    one, stands for the root. *)
Theorem generateUrl_drops_query (path : string) :
  lacks question path = true ->
  path <> EmptyString ->
  (forall query,
      Base.generateUrl (Some (path +:+ "?" +:+ query)) = path)
  /\ Base.generateUrl (Some path) = path
  /\ (forall query,
         Base.generateUrl (Some ("?" +:+ query)) = "?" +:+ query)
  /\ Base.generateUrl None = "/"
  /\ Base.generateUrl (Some EmptyString) = "/".
Proof.
  intros Hq Hne. destruct path as [|a path]; [contradiction |].
  repeat split.
  - intros query. unfold Base.generateUrl.
    change ((String a path +:+ "?" +:+ query =? EmptyString)%string)
      with false. cbv iota.
    rewrite (indexOf_lacks question) by exact Hq.
    change (indexOf "?" ("?" +:+ query)) with (Some 0). simpl option_map.
    change ("?" +:+ query) with (String question query).
    now rewrite first_segment_path.
  - unfold Base.generateUrl.
    change ((String a path =? EmptyString)%string) with false. cbv iota.
    rewrite <- (append_empty_r (String a path)) at 1.
    rewrite (indexOf_lacks question) by exact Hq. reflexivity.
Qed.

(** Whatever the path, [addTrailingSlash] returns a text that ends with a
    slash. *)
Theorem addTrailingSlash_ends_with_slash (path : string) :
  endsWith "/" (Base.addTrailingSlash host path) = true.
Proof.
  unfold Base.addTrailingSlash.
  destruct (endsWith "/" (normalizePath host
              (replace (Base.cwd host) EmptyString path))) eqn:E.
  - exact E.
  - apply endsWith_app.
Qed.

Lemma rootPrefix_none : Base.rootPrefix host None = EmptyString.
Proof.
  unfold Base.rootPrefix, replace. simpl default.
  rewrite replace_from_eq.
  destruct (startsWith (Base.cwd host) EmptyString); [| reflexivity].
  simpl. now rewrite skip_empty.
Qed.

Lemma rootPrefix_cwd : Base.rootPrefix host (Some (Base.cwd host)) = EmptyString.
Proof.
  unfold Base.rootPrefix. simpl default.
  rewrite <- (append_empty_r (Base.cwd host)) at 2.
  now rewrite replace_prefix.
Qed.

Lemma strip_html (name : string) :
  lacks dot name = true ->
  replace ".html" EmptyString ("/" +:+ name +:+ ".html") = String "/" name.
Proof.
  intros Hdot.
  change ("/" +:+ name +:+ ".html") with (String "/" name +:+ ".html").
  unfold replace. rewrite (replace_from_lacks dot) by exact Hdot.
  simpl. now rewrite append_empty_r.
Qed.

(** The path of a file of the project on disk, the working directory
    first, is normalized to the name of the page, when the root is not
    set or is the working directory. *)
Theorem getHtmlName_absolute (name : string) (root : option string) :
  lacks dot name = true ->
  root = None \/ root = Some (Base.cwd host) ->
  Base.getHtmlName host (Base.cwd host +:+ "/" +:+ name +:+ ".html") root
  = name.
Proof.
  intros Hdot Hroot. unfold Base.getHtmlName.
  rewrite replace_prefix, (strip_html name Hdot).
  assert (Base.rootPrefix host root = EmptyString) as ->
    by (destruct Hroot as [-> | ->];
        [apply rootPrefix_none | apply rootPrefix_cwd]).
  rewrite replace_empty_empty. simpl startsWith. cbv iota.
  apply ResolveFacts.substring_tail.
Qed.

(** A rule whose [find] does not occur in the code changes nothing,
    whatever its position. *)
Theorem generateInjectCode_absent_anchor (rule : InjectCode) (code : string) :
  includes (find rule) code = false ->
  Base.generateInjectCode rule code = code.
Proof.
  intros H. unfold Base.generateInjectCode.
  destruct (Base.pos_eqb (pos rule) after);
    [now apply replace_absent |].
  destruct (Base.pos_eqb (pos rule) before);
    [now apply replace_absent | reflexivity].
Qed.

(** With no dollar sign in [find] and [replacement], the replacement goes
    on a line after, or between two line feeds before, the first
    occurrence of [find]; the text around it is kept. *)
Theorem generateInjectCode_first_occurrence (anchor text pre post : string) :
  literal anchor = true ->
  literal text = true ->
  indexOf anchor (pre +:+ anchor +:+ post) = Some (String.length pre) ->
  Base.generateInjectCode
    {| pos := after; find := anchor; replacement := text |}
    (pre +:+ anchor +:+ post)
  = pre +:+ (anchor +:+ NL +:+ text) +:+ post
  /\ Base.generateInjectCode
       {| pos := before; find := anchor; replacement := text |}
       (pre +:+ anchor +:+ post)
     = pre +:+ (NL +:+ text +:+ NL +:+ anchor) +:+ post.
Proof.
  intros Hf Hr Hfirst. unfold Base.generateInjectCode, replace.
  cbn [pos find replacement Base.pos_eqb].
  rewrite !replace_from_first by exact Hfirst.
  rewrite !getSubstitution_literal; [auto | |].
  - now rewrite !literal_app, Hf, Hr.
  - now rewrite !literal_app, Hf, Hr.
Qed.

End TextFacts.
End TextFacts.

(** ** Loading a page *)

Module LoadFacts.
Section LoadFacts.

Import JS JSFacts JSMore.
#[local] Arguments String.append !_ _ /.

Context {Value : Type}.
Variable host : Host Value.
Variable this : Base.t Value.

(** In the options of a page given as an object, a key of the page's own
    data hides the same key of the global data, the other global keys are
    kept, the page's render function is used when there is one and the
    global one otherwise, and the template is untouched.  A page given as
    a path gets the global data and the global render function. *)
Theorem generatePageOptions_merge (page : PageObject Value)
    (globalData : VirtualHtmlTemplateData Value)
    (globalRender : VirtualHtmlTemplateRender Value) (path : string) :
  let merged := Base.generatePageOptions (inl page) globalData globalRender in
  let wrapped := Base.generatePageOptions (inr path) globalData globalRender in
  template merged = template page
  /\ (forall key,
         default ∅ (data merged) !! key
         = match default ∅ (data page) !! key with
           | Some value => Some value
           | None => globalData !! key
           end)
  /\ render merged = Some (default globalRender (render page))
  /\ wrapped = {| template := path; data := Some globalData;
                 render := Some globalRender |}.
Proof.
  repeat split. intros key. simpl. rewrite lookup_union.
  destruct (default ∅ (data page) !! key), (globalData !! key); reflexivity.
Qed.

(** A template that is on disk is read and handed to the render function
    of the page, or to the global one, together with the merged data; an
    error of the read is the error of the load, and then nothing is
    rendered or logged. *)
Theorem loadPage_template (page : PageObject Value) (tr : list Event) :
  existsSync host
    (path_resolve host (Base.cwd host) ("." +:+ template page)) = true ->
  Base.loadPage host this (PageTemplate page) tr
  = match readFile host
            (path_resolve host (Base.cwd host) ("." +:+ template page)) with
    | Returned code =>
        (html ← default (Base._globalRender this) (render page) code
                  (default ∅ (data page) ∪ Base._globalData this);
         mret (Some html)) tr
    | Thrown e => (Thrown e, tr)
    end.
Proof.
  intros H.
  unfold Base.loadPage, Base.readHtml, Base.renderTemplate,
    Base.readTemplate, lift, mbind, M_bind, bind.
  cbn [template data render Base.generatePageOptions default from_option].
  rewrite H. cbn [negb].
  now destruct (readFile host _).
Qed.

(** Whatever the host, [defaultRender] returns and leaves the log as it
    is: it returns the output of [ejs] when [ejs] is there and returns,
    and the template when [ejs] is missing or throws. *)
Theorem defaultRender_never_throws (template : string)
    (data : VirtualHtmlTemplateData Value) (tr : list Event) :
  Base.defaultRender host template data tr
  = (Returned
       match ejs_render host with
       | Some render =>
           match render template data with
           | Returned html => html
           | Thrown _ => template
           end
       | None => template
       end,
     tr).
Proof.
  unfold Base.defaultRender.
  destruct (ejs_render host) as [render |]; [| reflexivity].
  now destruct (render template data).
Qed.

(** Without [ejs] and without a render function in the options, a page
    given by the path of a file on disk is served as the text of that
    file. *)
Theorem load_verbatim_without_ejs (id path code : string) (tr : list Event) :
  Base._filter id = true ->
  Base._pages this !! Base.getHtmlName host id (Base._config_root this)
    = Some (PagePath path) ->
  path <> EmptyString ->
  Base._globalRender this = Base.defaultRender host ->
  ejs_render host = None ->
  existsSync host (path_resolve host (Base.cwd host) ("." +:+ path)) = true ->
  readFile host (path_resolve host (Base.cwd host) ("." +:+ path))
    = Returned code ->
  Base._load host this id tr = (Returned (Some code), tr).
Proof.
  intros Hf Hpage Hne Hrender Hejs Hexists Hread.
  rewrite (ResolveFacts.load_resolved host this id (PagePath path) Hf).
  - unfold Base.loadPage, Base.readHtml, Base.renderTemplate,
      Base.readTemplate, lift, mbind, M_bind, bind.
    cbn [template data render Base.generatePageOptions default
         from_option].
    rewrite Hexists, Hread, Hrender. cbn [negb]. unfold Datatypes.id.
    now rewrite (ServeFacts.defaultRender_no_ejs host code _ tr Hejs).
  - apply ResolveFacts.pageOption_exact; [exact Hpage |].
    simpl. apply negb_true_iff. now apply String.eqb_neq.
Qed.

(** When the table has nothing under any of the four keys, [_load]
    returns null, throws nothing and logs nothing. *)
Theorem load_miss (id : string) (tr : list Event) :
  (forall key,
      key ∈ Base.candidates
              (Base.getHtmlName host id (Base._config_root this)) ->
      Base._pages this !! key = None) ->
  Base._load host this id tr = (Returned None, tr).
Proof.
  intros Hnone. unfold Base._load.
  destruct (Base._filter id); [| reflexivity].
  rewrite ResolveFacts.pageOption_candidates.
  unfold Base.candidates in *. cbn [map]. unfold Obj.member.
  rewrite !Hnone by set_solver. unfold Base.or_else.
  repeat match goal with
         | |- context [Obj.inherited ?key] => destruct (Obj.inherited key)
         end;
    reflexivity.
Qed.

(** The page [_load] dispatches on is a property of the table itself,
    stored under one of the four keys; when the lookup stops at a member
    inherited from [Object.prototype], [_load] returns null. *)
Theorem pageOption_from_table (id : string) :
  let newId := Base.getHtmlName host id (Base._config_root this) in
  (forall page,
      Base.pageOption this newId = Some (Obj.Own page) ->
      exists key,
        key ∈ Base.candidates newId
        /\ Base._pages this !! key = Some page)
  /\ (forall name,
         Base.pageOption this newId = Some (Obj.Inherited name) ->
         name ∈ Base.candidates newId
         /\ Obj.inherited name = true
         /\ Base._pages this !! name = None
         /\ Base._load host this id = mret None).
Proof.
  intros newId. split.
  - intros page. rewrite ResolveFacts.pageOption_candidates.
    unfold Base.candidates. cbn [map]. unfold Base.or_else.
    repeat match goal with
           | |- context [if Base.truthyMember ?p then _ else _] =>
               destruct (Base.truthyMember p)
           end;
      unfold Obj.member;
      match goal with
      | |- context [Base._pages this !! ?key] =>
          destruct (Base._pages this !! key) eqn:E;
          [| destruct (Obj.inherited key); discriminate]
      end;
      intros [= <-]; eexists; (split; [| exact E]); set_solver.
  - intros name Hname.
    assert (Hload : Base._load host this id = mret None).
    { unfold Base._load. fold newId. rewrite Hname.
      now destruct (Base._filter id). }
    revert Hname. rewrite ResolveFacts.pageOption_candidates.
    unfold Base.candidates. cbn [map]. unfold Base.or_else.
    repeat match goal with
           | |- context [if Base.truthyMember ?p then _ else _] =>
               destruct (Base.truthyMember p)
           end;
      unfold Obj.member;
      match goal with
      | |- context [Base._pages this !! ?key] =>
          destruct (Base._pages this !! key) eqn:E; [discriminate |];
          destruct (Obj.inherited key) eqn:I; [| discriminate]
      end;
      intros [= <-]; (repeat split; [| exact I | exact E | exact Hload]);
      set_solver.
Qed.

End LoadFacts.
End LoadFacts.

(** ** The virtual page, discovery and the key of a rule *)

Module DiscoverFacts.
Section DiscoverFacts.

Import JS JSFacts JSMore Boilerplate.
#[local] Arguments String.append !_ _ /.

Context {Value : Type}.
Variable host : Host Value.

Lemma replace_at_first_char (c : ascii) (p r pre post : string) :
  lacks c pre = true ->
  literal r = true ->
  replace (String c p) r (pre +:+ String c p +:+ post) = pre +:+ r +:+ post.
Proof.
  intros Hpre Hr. unfold replace.
  rewrite (replace_from_lacks c) by exact Hpre.
  rewrite replace_from_eq, startsWith_app, skip_app.
  now rewrite getSubstitution_literal.
Qed.

Lemma boilerplate_pieces :
  Base.VIRTUAL_HTML_CONTENT
  = (upToTitle +:+ "#TITLE#" +:+ titleToEntry) +:+ "#ENTRY#"
      +:+ (entryToBody +:+ "#BODY#" +:+ afterBody)
  /\ indexOf "#ENTRY#"
       ((upToTitle +:+ "#TITLE#" +:+ titleToEntry) +:+ "#ENTRY#"
          +:+ (entryToBody +:+ "#BODY#" +:+ afterBody))
     = Some (String.length (upToTitle +:+ "#TITLE#" +:+ titleToEntry))
  /\ lacks hash upToTitle = true
  /\ lacks hash titleToEntry = true
  /\ lacks hash entryToBody = true.
Proof. vm_compute. repeat split. Qed.

(** Each placeholder of the boilerplate is filled once: when the entry,
    the title and the body hold no dollar sign, and the entry and the
    title no hash sign, the page is the four pieces of the boilerplate
    with the title, the entry and the body between them; a missing title
    is empty and a missing body is the [div] of the application. *)
Theorem generateVirtualPage_fills (vPages : VirtualPageOptions) :
  literal (entry vPages) = true ->
  literal (default EmptyString (title vPages)) = true ->
  literal (default defaultBody (body vPages)) = true ->
  lacks hash (entry vPages) = true ->
  lacks hash (default EmptyString (title vPages)) = true ->
  Base.generateVirtualPage vPages
  = upToTitle +:+ default EmptyString (title vPages) +:+ titleToEntry
      +:+ entry vPages +:+ entryToBody
      +:+ default defaultBody (body vPages) +:+ afterBody.
Proof.
  intros Le Lt Lb He Ht.
  destruct boilerplate_pieces as (E & I & Ha & Hb & Hc).
  unfold Base.generateVirtualPage.
  change ("<div id=" +:+ DQ +:+ "app" +:+ DQ +:+ "></div>") with defaultBody.
  set (t := default EmptyString (title vPages)) in *.
  set (b := default defaultBody (body vPages)) in *.
  rewrite E. unfold replace at 3.
  rewrite replace_from_first by exact I.
  rewrite getSubstitution_literal by exact Le.
  rewrite (append_assoc upToTitle).
  change "#TITLE#" with (String hash "TITLE#").
  change "#BODY#" with (String hash "BODY#").
  rewrite (append_assoc (String hash "TITLE#")).
  rewrite (replace_at_first_char hash "TITLE#") by assumption.
  assert (A : upToTitle +:+ t +:+ titleToEntry +:+ entry vPages +:+
                entryToBody +:+ String hash "BODY#" +:+ afterBody
              = (upToTitle +:+ t +:+ titleToEntry +:+ entry vPages
                   +:+ entryToBody) +:+ String hash "BODY#" +:+ afterBody)
    by now rewrite !append_assoc.
  rewrite A.
  rewrite (replace_at_first_char hash "BODY#"); [| | exact Lb].
  - now rewrite !append_assoc.
  - now rewrite !lacks_app, Ha, Ht, Hb, He, Hc.
Qed.

Lemma collect_snoc (files : list string) (file : string) :
  Base.collect (Value := Value) (files ++ [file])
  = Obj.assign (Discover.pageName file) (PagePath ("/" +:+ file))
      (Base.collect files).
Proof. unfold Base.collect. now rewrite foldl_snoc. Qed.

Lemma assign_stored {A} (key : string) (a : A) (obj : gmap string A) :
  key <> "__proto__" -> Obj.assign key a obj = <[ key := a ]> obj.
Proof.
  intros H. unfold Obj.assign. apply String.eqb_neq in H. now rewrite H.
Qed.

Lemma assign_lookup {A} (key other : string) (a b : A)
    (obj : gmap string A) :
  Obj.assign key a obj !! other = Some b ->
  (key = other /\ a = b) \/ obj !! other = Some b.
Proof.
  unfold Obj.assign. destruct (String.eqb key "__proto__"); [auto |].
  destruct (decide (key = other)) as [<- | Hne].
  - rewrite lookup_insert_eq. intros [= <-]. auto.
  - rewrite lookup_insert_ne by exact Hne. auto.
Qed.

(** Every entry of the table of discovered pages is the path of a file
    the glob returned, under the name of that file. *)
Theorem collect_from_files (files : list string) (key : string)
    (page : Page Value) :
  Base.collect files !! key = Some page ->
  exists file,
    file ∈ files
    /\ key = Discover.pageName file
    /\ page = PagePath ("/" +:+ file).
Proof.
  induction files as [|file files IH] using rev_ind.
  - unfold Base.collect. simpl. now rewrite lookup_empty.
  - rewrite collect_snoc.
    intros [[<- <-] | (f & Hin & -> & ->)%IH]%assign_lookup.
    + exists file. set_solver.
    + exists f. set_solver.
Qed.

Lemma collect_lookup_last (before after : list string) (file : string) :
  Discover.pageName file <> "__proto__" ->
  (forall other, other ∈ after ->
                 Discover.pageName other <> Discover.pageName file) ->
  Base.collect (Value := Value) (before ++ file :: after)
    !! Discover.pageName file
  = Some (PagePath ("/" +:+ file)).
Proof.
  intros Hproto.
  induction after as [|other after IH] using rev_ind; intros Hlater.
  - rewrite collect_snoc, assign_stored by exact Hproto.
    apply lookup_insert_eq.
  - replace (before ++ file :: after ++ [other])
      with ((before ++ file :: after) ++ [other])
      by now rewrite <- app_assoc.
    rewrite collect_snoc.
    assert (Hne : Discover.pageName other <> Discover.pageName file)
      by (apply Hlater; set_solver).
    unfold Obj.assign.
    destruct (String.eqb (Discover.pageName other) "__proto__").
    + apply IH. intros o Ho. apply Hlater. set_solver.
    + rewrite lookup_insert_ne by exact Hne.
      apply IH. intros o Ho. apply Hlater. set_solver.
Qed.

(** Every file the glob returned has an entry under its name, and of the
    files with one name the last one is the one in the table; except for
    the name [__proto__], under which nothing is ever stored. *)
Theorem collect_last_wins (before after : list string) (file : string) :
  Discover.pageName file <> "__proto__" ->
  (forall other, other ∈ after ->
                 Discover.pageName other <> Discover.pageName file) ->
  Base.collect (Value := Value) (before ++ file :: after)
    !! Discover.pageName file
  = Some (PagePath ("/" +:+ file))
  /\ (forall other,
         other ∈ before ++ file :: after ->
         Discover.pageName other <> "__proto__" ->
         is_Some (Base.collect (Value := Value) (before ++ file :: after)
                    !! Discover.pageName other))
  /\ Base.collect (Value := Value) (before ++ file :: after) !! "__proto__"
     = None.
Proof.
  intros Hproto Hlater. split; [now apply collect_lookup_last |].
  generalize (before ++ file :: after). clear. intros l. split.
  - induction l as [|last l IH] using rev_ind; intros other Hin Hother.
    + now apply elem_of_nil in Hin.
    + rewrite collect_snoc.
      destruct (decide (Discover.pageName last = Discover.pageName other))
        as [E | Hne].
      * rewrite E, assign_stored, lookup_insert_eq by exact Hother. eauto.
      * assert (Hin' : other ∈ l).
        { apply elem_of_app in Hin as [Hin | Hin]; [exact Hin |].
          apply list_elem_of_singleton in Hin. now subst. }
        unfold Obj.assign.
        destruct (String.eqb (Discover.pageName last) "__proto__");
          [now apply IH |].
        rewrite lookup_insert_ne by exact Hne. now apply IH.
  - induction l as [|last l IH] using rev_ind; [reflexivity |].
    rewrite collect_snoc. unfold Obj.assign.
    destruct (String.eqb (Discover.pageName last) "__proto__") eqn:E;
      [exact IH |].
    apply String.eqb_neq in E. now rewrite lookup_insert_ne.
Qed.

(** The name of a page is the base name of its file without [.html]: the
    directory plays no role, so that files of the same name in two
    directories meet under one key. *)
Theorem pageName_base_name (dir name : string) :
  lacks slash name = true ->
  lacks dot name = true ->
  Discover.pageName (dir +:+ "/" +:+ name +:+ ".html") = name
  /\ Discover.pageName (name +:+ ".html") = name.
Proof.
  intros Hs Hd. unfold Discover.pageName.
  assert (Hfile : lacks slash (name +:+ ".html") = true)
    by now rewrite lacks_app, Hs.
  assert (Hstrip : replace ".html" EmptyString (name +:+ ".html") = name).
  { unfold replace. rewrite (replace_from_lacks dot) by exact Hd.
    simpl. now rewrite append_empty_r. }
  split.
  - change (dir +:+ "/" +:+ name +:+ ".html")
      with (dir +:+ String slash (name +:+ ".html")).
    now rewrite last_segment_file.
  - now rewrite last_segment_lacks.
Qed.

Lemma set_add_all_prefix (l set : list string) :
  exists rest,
    foldl (fun set dg => Base.set_add dg set) set l = set ++ rest
    /\ forall p, p ∈ rest -> p ∈ l.
Proof.
  revert set. induction l as [|x l IH]; intros set; simpl.
  - exists []. split; [now rewrite app_nil_r | set_solver].
  - destruct (IH (Base.set_add x set)) as (rest & -> & Hrest).
    unfold Base.set_add. case_bool_decide.
    + exists rest. split; [reflexivity |].
      intros p Hp. rewrite elem_of_cons. auto.
    + exists (x :: rest). split; [now rewrite <- app_assoc |].
      intros p Hp. rewrite elem_of_cons in *. destruct Hp; auto.
Qed.

(** The default patterns always come first, in their order; what follows
    them is taken from the extra patterns. *)
Theorem realPattern_defaults_first (extraGlobPattern : list string) :
  exists rest,
    Base.realPattern extraGlobPattern = Base.DEFAULT_GLOB_PATTERN ++ rest
    /\ forall p, p ∈ rest -> p ∈ extraGlobPattern.
Proof.
  unfold Base.realPattern.
  destruct extraGlobPattern as [|x extra].
  - exists []. split; [reflexivity | set_solver].
  - change (length (x :: extra) =? 0) with false. cbv iota.
    change (foldl (fun set dg => Base.set_add dg set) []
              Base.DEFAULT_GLOB_PATTERN)
      with Base.DEFAULT_GLOB_PATTERN.
    apply set_add_all_prefix.
Qed.

Variable this : Base.t Value.

(** The rule of a file is looked up under the last segment of the id:
    it applies to the file in any directory.  With no rule for the file
    and no wildcard rule the code comes back as it was. *)
Theorem _transform_keyed_by_file_name (code dir file : string) :
  Base._filter (dir +:+ "/" +:+ file) = true ->
  lacks slash file = true ->
  Base._injectCode this !! Base.DEFAULT_INJECTCODE_ALL = None ->
  Base._transform this code (dir +:+ "/" +:+ file)
  = Some match Base._injectCode this !! file with
         | Some rule => Base.generateInjectCode rule code
         | None => code
         end.
Proof.
  intros Hf Hfile Hall. unfold Base._transform. rewrite Hf.
  change (dir +:+ "/" +:+ file) with (dir +:+ String slash file).
  rewrite last_segment_file by exact Hfile.
  unfold Obj.member. rewrite Hall.
  change (Obj.inherited Base.DEFAULT_INJECTCODE_ALL) with false. cbv iota.
  destruct (Base._injectCode this !! file); [reflexivity |].
  now destruct (Obj.inherited file).
Qed.

(** A page found by discovery is served under its name: the request for
    [/name.html] loads the last file the glob returned with that name,
    in whatever directory it is. *)
Theorem discovered_page_served (options : HtmlPluginOptions Value)
    (before after : list string) (file : string) :
  opt_pages options = None ->
  glob_sync host
    (Base.realPattern (default [] (opt_extraGlobPattern options)))
    = before ++ file :: after ->
  (forall other, other ∈ after ->
                 Discover.pageName other <> Discover.pageName file) ->
  Discover.pageName file <> "__proto__" ->
  Base.bare (Discover.pageName file) = true ->
  includes (Base.cwd host) ("/" +:+ Discover.pageName file +:+ ".html")
    = false ->
  Base._load host (Base.constructor host options)
    ("/" +:+ Discover.pageName file +:+ ".html")
  = Base.loadPage host (Base.constructor host options)
      (PagePath ("/" +:+ file)).
Proof.
  intros Hpages Hglob Hlater Hproto Hbare Hcwd.
  destruct (ResolveFacts.bare_parts _ Hbare) as (Hs & Hd & Hn).
  apply ResolveFacts.load_resolved;
    [now apply ResolveFacts.filter_html |].
  cbn [Base.constructor Base._config_root].
  rewrite ResolveFacts.getHtmlName_html;
    [| exact Hd | exact Hcwd | apply TextFacts.rootPrefix_none].
  apply ResolveFacts.pageOption_exact; [| reflexivity].
  cbn [Base.constructor Base._pages]. rewrite Hpages.
  unfold Base.findAllHtmlInProject. rewrite Hglob.
  now apply collect_lookup_last.
Qed.

End DiscoverFacts.
End DiscoverFacts.

(** ** The handler past its gate, and the earlier revision *)

Module HandlerFacts.
Section HandlerFacts.

Import JS JSFacts JSMore.
#[local] Arguments String.append !_ _ /.

Context {Value : Type}.
Variable host : Host Value.

(** What the gate of the handler lets through passes the filter of
    [_load] and [_transform], unless it holds a NUL character. *)
Lemma gate_filter (u : string) :
  endsWith ".html" u = true \/ endsWith "/" u = true ->
  lacks nul u = true ->
  Base._filter u = true.
Proof.
  intros Hgate Hnul. unfold Base._filter. rewrite Hnul. simpl.
  destruct Hgate as [(pre & ->)%endsWith_split | (pre & ->)%endsWith_split];
    rewrite slashes_app.
  - change (slashes ".html") with ".html". now rewrite includes_suffix.
  - change (slashes "/") with "/". rewrite endsWith_app. apply orb_true_r.
Qed.

Variable this : Serve.t (Value := Value).

(** Past its gate the handler always answers: whatever [_load] returned,
    null as well, [_transform] gives code, that code goes through the
    html transformation of the server, the response is ended with it and
    [next] is called after that.  An error of the transformation is the
    error of the handler. *)
Theorem middleware_answers (req : Request) (url : string)
    (tr tr' tr'' : list Event) (loaded : option string) :
  let target :=
    if String.eqb url "/" || String.eqb url "/index.html"
    then "/" +:+ Base._indexPage (Serve.base this) +:+ ".html"
    else url in
  Serve.effectiveUrl host this req tr = (Returned url, tr') ->
  endsWith ".html" url = true \/ endsWith "/" url = true ->
  lacks nul target = true ->
  Base._load host (Serve.base this) (normalizePath host target)
    (tr' ++ [LoadCalled (normalizePath host target)])
    = (Returned loaded, tr'') ->
  exists code,
    Base._transform (Serve.base this) (default EmptyString loaded) target
      = Some code
    /\ Serve.middleware host this req tr
       = match transformIndexHtml host target code with
         | Returned html => (Returned tt, tr'' ++ [Ended html; NextCalled])
         | Thrown e => (Thrown e, tr'')
         end.
Proof.
  intros target Hurl Hgate Hnul Hload.
  assert (Hfilter : Base._filter target = true).
  { apply gate_filter; [| exact Hnul]. subst target.
    destruct (String.eqb url "/" || String.eqb url "/index.html");
      [| exact Hgate].
    left. rewrite <- append_assoc. apply endsWith_app. }
  assert (Hcode : exists code,
             Base._transform (Serve.base this)
               (default EmptyString loaded) target = Some code).
  { unfold Base._transform. rewrite Hfilter. eauto. }
  destruct Hcode as (code & Hcode). exists code. split; [exact Hcode |].
  unfold Serve.middleware, mbind, M_bind, bind. rewrite Hurl.
  assert (Hbail : negb (endsWith ".html" url) && negb (endsWith "/" url)
                  && negb (String.eqb url "/") = false).
  { destruct Hgate as [-> | ->]; simpl; [reflexivity |].
    now rewrite andb_false_r. }
  rewrite Hbail. fold target. unfold emit at 1. rewrite Hload.
  unfold Serve.deliver. rewrite Hcode.
  unfold mbind, M_bind, bind, lift, Serve.next, emit.
  destruct (transformIndexHtml host target code); [| reflexivity].
  now rewrite <- app_assoc.
Qed.

(** A url that cannot be decoded makes the handler fail with the error
    of the decoding: nothing is loaded, the response is not ended and
    [next] is not called. *)
Theorem middleware_decode_error (req : Request) (e : Error)
    (tr : list Event) :
  decodeURI host
    (Base.generateUrl
       (match originalUrl req with
        | Some o => if endsWith "/" o then originalUrl req else url req
        | None => url req
        end)) = Thrown e ->
  Serve.middleware host this req tr = (Thrown e, tr).
Proof.
  intros H.
  unfold Serve.middleware, Serve.effectiveUrl, mbind, M_bind, bind, lift.
  now rewrite H.
Qed.

(** In the earlier revision, called as a method on an instance that has
    not warned yet and without [ejs], every call of [defaultRender]
    returns its template; the warning is logged by the first call and by
    no other. *)
Theorem legacy_warns_once
    (calls : list (string * VirtualHtmlTemplateData Value)) :
  ejs_render host = None ->
  (Legacy.renderAll host true calls Legacy.fresh).1
  = map (fun c => Returned c.1) calls
  /\ Legacy.warnings
       (Legacy.events (Legacy.renderAll host true calls Legacy.fresh).2)
     = match calls with [] => 0 | _ :: _ => 1 end.
Proof.
  intros H.
  destruct (ServeFacts.legacy_renderAll_warns_once host calls Legacy.fresh H)
    as [Hout Hle]; [simpl; lia |].
  split; [exact Hout |].
  destruct calls as [|[template data] calls]; [reflexivity |].
  cbn [Legacy.renderAll] in *.
  unfold Legacy.defaultRender in *. rewrite H in *.
  cbn [Legacy.alreadyShowEjsError Legacy.fresh Legacy.events app] in *.
  set (st := {| Legacy.alreadyShowEjsError := true;
                Legacy.events := [Logged Legacy.ejsMissing] |}) in *.
  assert (Hmono : forall cs s,
             Legacy.alreadyShowEjsError s = true ->
             Legacy.events (Legacy.renderAll host true cs s).2
             = Legacy.events s).
  { induction cs as [|[t d] cs IH]; intros s Hs; [reflexivity |].
    cbn [Legacy.renderAll]. unfold Legacy.defaultRender. rewrite H, Hs.
    specialize (IH s Hs).
    now destruct (Legacy.renderAll host true cs s). }
  specialize (Hmono calls st eq_refl).
  destruct (Legacy.renderAll host true calls st) as [os st'].
  simpl in *. now rewrite Hmono.
Qed.

Lemma length_append (a b : string) :
  String.length (a +:+ b) = String.length a + String.length b.
Proof. induction a as [|x a IH]; simpl; [reflexivity | now rewrite IH]. Qed.

Lemma take_app (a b : string) : take (String.length a) (a +:+ b) = a.
Proof. induction a as [|x a IH]; simpl; [now destruct b | now rewrite IH]. Qed.

(** The earlier revision of [getHtmlName] cuts the last five characters:
    [/name.html] is normalized to [name] whatever the name holds, a dot
    or [.html] as well. *)
Theorem legacy_getHtmlName_suffix (name : string) (root : option string) :
  includes (Base.cwd host) ("/" +:+ name +:+ ".html") = false ->
  Base.rootPrefix host root = EmptyString ->
  Legacy.getHtmlName host ("/" +:+ name +:+ ".html") root = name.
Proof.
  intros Hcwd Hroot. unfold Legacy.getHtmlName.
  rewrite (replace_absent _ _ _ Hcwd), Hroot.
  change ("/" +:+ name +:+ ".html") with (String "/" name +:+ ".html").
  unfold substring. rewrite length_append.
  change (String.length ".html") with 5.
  rewrite Nat.add_sub, Nat.min_0_l, Nat.max_0_l, Nat.sub_0_r.
  change (skip 0 (String "/" name +:+ ".html"))
    with (String "/" name +:+ ".html").
  rewrite take_app, replace_empty_empty. reflexivity.
Qed.

End HandlerFacts.
End HandlerFacts.

(** ** The further properties on the concrete hosts *)

Module MoreRuns.

Import JS TextFacts LoadFacts DiscoverFacts HandlerFacts.

Lemma generateUrl_drops_query_witness :
  Base.generateUrl (Some "/about.html?x=1") = "/about.html"
  /\ Base.generateUrl (Some "/about.html") = "/about.html".
Proof.
  assert (H1 : lacks question "/about.html" = true) by reflexivity.
  assert (H2 : "/about.html" <> EmptyString) by discriminate.
  destruct (generateUrl_drops_query "/about.html" H1 H2) as (W1 & W2 & _).
  split; [exact (W1 "x=1") | exact W2].
Defined.

Lemma getHtmlName_absolute_witness :
  Base.getHtmlName Site.host "/srv/site/about.html" None = "about".
Proof.
  assert (H1 : lacks dot "about" = true) by reflexivity.
  pose proof (getHtmlName_absolute Site.host "about" None H1
                (or_introl eq_refl)) as W.
  vm_compute in W. vm_compute. exact W.
Defined.

Lemma generateInjectCode_absent_anchor_witness :
  Base.generateInjectCode Demo.X_after_A "<body></body>" = "<body></body>".
Proof.
  apply (generateInjectCode_absent_anchor Demo.X_after_A "<body></body>").
  reflexivity.
Defined.

Lemma generateInjectCode_first_occurrence_witness :
  Base.generateInjectCode
    {| pos := after; find := "<p>"; replacement := "<hr>" |}
    ("<div>" +:+ "<p>" +:+ "a<p>b")
  = "<div>" +:+ ("<p>" +:+ NL +:+ "<hr>") +:+ "a<p>b"
  /\ Base.generateInjectCode
       {| pos := before; find := "<p>"; replacement := "<hr>" |}
       ("<div>" +:+ "<p>" +:+ "a<p>b")
     = "<div>" +:+ (NL +:+ "<hr>" +:+ NL +:+ "<p>") +:+ "a<p>b".
Proof.
  apply (generateInjectCode_first_occurrence "<p>" "<hr>" "<div>" "a<p>b");
    reflexivity.
Defined.

Lemma generateVirtualPage_fills_witness :
  Base.generateVirtualPage Demo.main
  = Boilerplate.upToTitle +:+ "App" +:+ Boilerplate.titleToEntry
      +:+ "/src/main.ts" +:+ Boilerplate.entryToBody
      +:+ Boilerplate.defaultBody +:+ Boilerplate.afterBody.
Proof.
  apply (generateVirtualPage_fills Demo.main); reflexivity.
Defined.

Lemma loadPage_template_witness :
  Base.loadPage Site.host (Site.plugin Site.host ∅)
    (PageTemplate Site.aboutPage) []
  = (Returned (Some "About us:<h1>About</h1>"), []).
Proof.
  assert (H : existsSync Site.host
                (path_resolve Site.host (Base.cwd Site.host)
                   ("." +:+ template Site.aboutPage)) = true)
    by (vm_compute; reflexivity).
  pose proof (loadPage_template Site.host (Site.plugin Site.host ∅)
                Site.aboutPage [] H) as W.
  vm_compute in W. vm_compute. exact W.
Defined.

Lemma load_verbatim_without_ejs_witness :
  Base._load Site.plain
    (Site.plugin Site.plain {[ "about" := PagePath "/about.html" ]})
    "/about.html" []
  = (Returned (Some "<h1>About</h1>"), []).
Proof.
  apply (load_verbatim_without_ejs Site.plain
           (Site.plugin Site.plain {[ "about" := PagePath "/about.html" ]})
           "/about.html" "/about.html" "<h1>About</h1>" []);
    try (vm_compute; reflexivity).
  discriminate.
Defined.

Lemma load_miss_witness :
  Base._load Demo.host (Demo.plugin Demo.about ∅) "/missing.html" []
  = (Returned None, []).
Proof.
  apply (load_miss Demo.host (Demo.plugin Demo.about ∅) "/missing.html" []).
  intros key Hin. apply list_elem_of_In in Hin. vm_compute in Hin.
  destruct Hin as [<- | [<- | [<- | [<- | []]]]]; vm_compute; reflexivity.
Defined.

Lemma pageOption_from_table_witness :
  (exists key,
      key ∈ Base.candidates
              (Base.getHtmlName Demo.host "/about.html" None)
      /\ Base._pages (Demo.plugin Demo.indexed ∅) !! key
         = Some (PagePath "/about/index.html"))
  /\ Base._load Demo.host (Demo.plugin Demo.indexed ∅) "/constructor.html"
     = mret None.
Proof.
  destruct (pageOption_from_table Demo.host (Demo.plugin Demo.indexed ∅)
              "/about.html") as [W _].
  destruct (pageOption_from_table Demo.host (Demo.plugin Demo.indexed ∅)
              "/constructor.html") as [_ W'].
  split.
  - apply (W (PagePath "/about/index.html")). vm_compute. reflexivity.
  - apply (W' "constructor"). vm_compute. reflexivity.
Defined.

Lemma collect_from_files_witness :
  exists file,
    file ∈ Site.files
    /\ "guide" = Discover.pageName file
    /\ PagePath (Value := string) "/docs/guide.html"
       = PagePath ("/" +:+ file).
Proof.
  apply (collect_from_files Site.files "guide"
           (PagePath "/docs/guide.html")).
  vm_compute. reflexivity.
Defined.

Lemma collect_last_wins_witness :
  Base.collect (Value := string)
    (["a/index.html"] ++ "b/index.html" :: ["__proto__.html"])
    !! Discover.pageName "b/index.html"
  = Some (PagePath ("/" +:+ "b/index.html"))
  /\ (forall other,
         other ∈ ["a/index.html"] ++ "b/index.html" :: ["__proto__.html"] ->
         Discover.pageName other <> "__proto__" ->
         is_Some (Base.collect (Value := string)
                    (["a/index.html"] ++ "b/index.html"
                       :: ["__proto__.html"])
                    !! Discover.pageName other))
  /\ Base.collect (Value := string)
       (["a/index.html"] ++ "b/index.html" :: ["__proto__.html"])
       !! "__proto__"
     = None.
Proof.
  apply (collect_last_wins ["a/index.html"] ["__proto__.html"]
           "b/index.html").
  - vm_compute. discriminate.
  - intros other Hin. apply list_elem_of_In in Hin.
    destruct Hin as [<- | []]. vm_compute. discriminate.
Defined.

Lemma pageName_base_name_witness :
  Discover.pageName ("docs" +:+ "/" +:+ "guide" +:+ ".html") = "guide"
  /\ Discover.pageName ("guide" +:+ ".html") = "guide".
Proof.
  apply (pageName_base_name "docs" "guide"); reflexivity.
Defined.

Lemma _transform_keyed_by_file_name_witness :
  Base._transform (Site.plugin Site.host ∅) "A" "/docs/guide.html"
  = Some ("A" +:+ NL +:+ "X").
Proof.
  assert (H1 : Base._filter ("/docs" +:+ "/" +:+ "guide.html") = true)
    by (vm_compute; reflexivity).
  assert (H2 : lacks slash "guide.html" = true) by reflexivity.
  assert (H3 : Base._injectCode (Site.plugin Site.host ∅)
                 !! Base.DEFAULT_INJECTCODE_ALL = None)
    by (vm_compute; reflexivity).
  pose proof (_transform_keyed_by_file_name (Site.plugin Site.host ∅)
                "A" "/docs" "guide.html" H1 H2 H3) as W.
  vm_compute in W. vm_compute. exact W.
Defined.

Lemma discovered_page_served_witness :
  Base._load Site.host (Base.constructor Site.host Site.discover)
    "/guide.html" []
  = Base.loadPage Site.host (Base.constructor Site.host Site.discover)
      (PagePath "/docs/guide.html") [].
Proof.
  assert (H1 : glob_sync Site.host
                 (Base.realPattern
                    (default [] (opt_extraGlobPattern Site.discover)))
               = ["about.html"] ++ "docs/guide.html" :: [])
    by reflexivity.
  assert (H2 : forall other, other ∈ @nil string ->
                 Discover.pageName other
                 <> Discover.pageName "docs/guide.html")
    by (intros other Hin; apply elem_of_nil in Hin; contradiction).
  assert (H3 : Base.bare (Discover.pageName "docs/guide.html") = true)
    by (vm_compute; reflexivity).
  assert (H5 : Discover.pageName "docs/guide.html" <> "__proto__")
    by (vm_compute; discriminate).
  assert (H4 : includes (Base.cwd Site.host)
                 ("/" +:+ Discover.pageName "docs/guide.html" +:+ ".html")
               = false)
    by (vm_compute; reflexivity).
  pose proof (discovered_page_served Site.host Site.discover
                ["about.html"] [] "docs/guide.html" eq_refl H1 H2 H5 H3 H4)
    as W.
  apply (f_equal (fun load => load [])) in W.
  vm_compute in W. vm_compute. exact W.
Defined.

Lemma middleware_answers_witness :
  Serve.middleware Site.host (Site.server Site.host ∅)
    (Site.request "/missing.html") []
  = (Returned tt,
     [LoadCalled "/missing.html"; Ended "<!-- vite -->"; NextCalled]).
Proof.
  assert (H1 : Serve.effectiveUrl Site.host (Site.server Site.host ∅)
                 (Site.request "/missing.html") []
               = (Returned "/missing.html", []))
    by (vm_compute; reflexivity).
  assert (H2 : lacks nul "/missing.html" = true) by reflexivity.
  assert (H3 : Base._load Site.host (Serve.base (Site.server Site.host ∅))
                 (normalizePath Site.host "/missing.html")
                 ([] ++ [LoadCalled (normalizePath Site.host "/missing.html")])
               = (Returned None, [LoadCalled "/missing.html"]))
    by (vm_compute; reflexivity).
  destruct (middleware_answers Site.host (Site.server Site.host ∅)
              (Site.request "/missing.html") "/missing.html" [] []
              [LoadCalled "/missing.html"] None H1
              (or_introl eq_refl) H2 H3) as (code & Hcode & W).
  vm_compute in Hcode. injection Hcode as <-.
  vm_compute in W. vm_compute. exact W.
Defined.

Lemma middleware_decode_error_witness :
  Serve.middleware Site.host (Site.server Site.host ∅)
    (Site.request "/%E0%A4%A.html") []
  = (Thrown URIError, []).
Proof.
  apply (middleware_decode_error Site.host (Site.server Site.host ∅)
           (Site.request "/%E0%A4%A.html") URIError []).
  vm_compute. reflexivity.
Defined.

Lemma legacy_warns_once_witness :
  (Legacy.renderAll Demo.host true [("a", ∅); ("b", ∅)] Legacy.fresh).1
  = [Returned "a"; Returned "b"]
  /\ Legacy.warnings
       (Legacy.events
          (Legacy.renderAll Demo.host true [("a", ∅); ("b", ∅)]
             Legacy.fresh).2)
     = 1.
Proof.
  apply (legacy_warns_once Demo.host [("a", ∅); ("b", ∅)]). reflexivity.
Defined.

Lemma legacy_getHtmlName_suffix_witness :
  Legacy.getHtmlName Demo.host ("/" +:+ "x.htmlz" +:+ ".html") None
  = "x.htmlz".
Proof.
  apply (legacy_getHtmlName_suffix Demo.host "x.htmlz" None);
    vm_compute; reflexivity.
Defined.

End MoreRuns.

(** ** Virtual pages and the index page *)

Module RouteFacts.
Section RouteFacts.

Import JS JSFacts JSMore.
#[local] Arguments String.append !_ _ /.

Context {Value : Type}.
Variable host : Host Value.

Variable this : Base.t Value.

(** A virtual page stored under the normalized name is served as the
    filled boilerplate: nothing is read and nothing is logged. *)
Theorem load_virtual (id : string) (page : VirtualPageOptions)
    (tr : list Event) :
  Base._filter id = true ->
  Base._pages this !! Base.getHtmlName host id (Base._config_root this)
    = Some (PageVirtual page) ->
  Base._load host this id tr
  = (Returned (Some (Base.generateVirtualPage page)), tr).
Proof.
  intros Hf Hpage.
  rewrite (ResolveFacts.load_resolved host this id (PageVirtual page) Hf);
    [reflexivity |].
  now apply ResolveFacts.pageOption_exact.
Qed.

End RouteFacts.

Section IndexPage.

Import JS JSFacts JSMore.
#[local] Arguments String.append !_ _ /.

Context {Value : Type}.
Variable host : Host Value.
Variable this : Serve.t (Value := Value).

(** A request for the root is answered with the index page: when a
    virtual page is stored under the name of the index page and no rule
    applies to it, the filled boilerplate goes through the html
    transformation of the server under the url of the index page, the
    response is ended with the result and [next] is called. *)
Theorem root_serves_index_page (req : Request) (page : VirtualPageOptions)
    (tr tr' : list Event) :
  let index :=
    "/" +:+ Base._indexPage (Serve.base this) +:+ ".html" in
  Serve.effectiveUrl host this req tr = (Returned "/", tr') ->
  normalizePath host index = index ->
  Base.bare (Base._indexPage (Serve.base this)) = true ->
  Base.rootPrefix host (Base._config_root (Serve.base this)) = EmptyString ->
  includes (Base.cwd host) index = false ->
  Base._pages (Serve.base this) !! Base._indexPage (Serve.base this)
    = Some (PageVirtual page) ->
  Base._injectCode (Serve.base this) !! Base.DEFAULT_INJECTCODE_ALL = None ->
  Base._injectCode (Serve.base this)
    !! (Base._indexPage (Serve.base this) +:+ ".html") = None ->
  Serve.middleware host this req tr
  = match transformIndexHtml host index
            (Base.generateVirtualPage page) with
    | Returned html =>
        (Returned tt, tr' ++ [LoadCalled index; Ended html; NextCalled])
    | Thrown e => (Thrown e, tr' ++ [LoadCalled index])
    end.
Proof.
  intros index Hurl Hnorm Hbare Hroot Hcwd Hpage Hall Hfile.
  destruct (ResolveFacts.bare_parts _ Hbare) as (Hs & Hd & Hn).
  assert (Hfilter : Base._filter index = true)
    by now apply ResolveFacts.filter_html.
  assert (Hname : Base.getHtmlName host index
                    (Base._config_root (Serve.base this))
                  = Base._indexPage (Serve.base this))
    by now apply ResolveFacts.getHtmlName_html.
  assert (Hload : Base._load host (Serve.base this) index
                    (tr' ++ [LoadCalled index])
                  = (Returned (Some (Base.generateVirtualPage page)),
                     tr' ++ [LoadCalled index])).
  { rewrite (ResolveFacts.load_resolved host (Serve.base this) index
               (PageVirtual page) Hfilter); [reflexivity |].
    rewrite Hname. now apply ResolveFacts.pageOption_exact. }
  assert (Hcode : Base._transform (Serve.base this)
                    (Base.generateVirtualPage page) index
                  = Some (Base.generateVirtualPage page)).
  { unfold Base._transform. rewrite Hfilter. subst index.
    change ("/" +:+ Base._indexPage (Serve.base this) +:+ ".html")
      with (EmptyString
              +:+ String slash (Base._indexPage (Serve.base this) +:+ ".html")).
    rewrite last_segment_file by now rewrite lacks_app, Hs.
    unfold Obj.member. rewrite Hall, Hfile.
    change (Obj.inherited Base.DEFAULT_INJECTCODE_ALL) with false.
    cbv iota.
    now destruct (Obj.inherited
                    (Base._indexPage (Serve.base this) +:+ ".html")). }
  unfold Serve.middleware, mbind, M_bind, bind. rewrite Hurl.
  change (negb (endsWith ".html" "/") && negb (endsWith "/" "/")
          && negb ("/" =? "/")%string) with false.
  change (("/" =? "/")%string || ("/" =? "/index.html")%string) with true.
  cbv iota. fold index. rewrite Hnorm. unfold emit at 1. rewrite Hload.
  unfold Serve.deliver. cbn [default from_option]. unfold Datatypes.id.
  rewrite Hcode.
  unfold mbind, M_bind, bind, lift, Serve.next, emit.
  destruct (transformIndexHtml host index (Base.generateVirtualPage page));
    [| reflexivity].
  now rewrite <- !app_assoc.
Qed.

End IndexPage.
End RouteFacts.

Module RouteRuns.

Import JS RouteFacts.

Lemma load_virtual_witness :
  Base._load Demo.host (Demo.plugin Demo.shadowed ∅) "/a/" []
  = (Returned (Some (Base.generateVirtualPage Demo.main)), []).
Proof.
  apply (load_virtual Demo.host (Demo.plugin Demo.shadowed ∅) "/a/"
           Demo.main []);
    vm_compute; reflexivity.
Defined.

Lemma root_serves_index_page_witness :
  Serve.middleware Site.host
    (Site.server Site.host {[ "index" := PageVirtual Demo.main ]})
    (Site.request "/") []
  = (Returned tt,
     [LoadCalled "/index.html";
      Ended ("<!-- vite -->" +:+ Base.generateVirtualPage Demo.main);
      NextCalled]).
Proof.
  pose proof (root_serves_index_page Site.host
                (Site.server Site.host {[ "index" := PageVirtual Demo.main ]})
                (Site.request "/") Demo.main [] []) as W.
  cbv zeta in W.
  assert (H1 : Serve.effectiveUrl Site.host
                 (Site.server Site.host
                    {[ "index" := PageVirtual Demo.main ]})
                 (Site.request "/") [] = (Returned "/", []))
    by (vm_compute; reflexivity).
  specialize (W H1).
  repeat (match type of W with
          | ?P -> _ =>
              let H := fresh in
              assert (H : P) by (vm_compute; reflexivity);
              specialize (W H); clear H
          end).
  vm_compute in W. vm_compute. exact W.
Defined.

End RouteRuns.
